(** * OpenSmoker control unit: the thermal control state machine

    A shallow embedding of [PlatformIO/src/main.cpp] (Raspberry Pi Pico
    RP2040, Arduino core) and the properties of its control loop: the
    emergency latch, the forced-off branch, the heater and fan controllers
    with their minimum dwell times, the clamp of the readings, and the
    encoder and button handlers.

    Conventions.
    - [int] is 32 bits, two's complement; arithmetic on it is written with
      the wrap-around of the target ([wrap_int]).  Signed overflow is
      undefined in C++: a property that depends on a sum or a difference
      says in which range it holds.
    - [unsigned long] is 32 bits; [millis()] is the time since boot in
      milliseconds modulo 2^32.
    - the [float] values met in the control code are all integers; a
      binary32 value is carried as that integer, and every conversion and
      operation rounds to 24 significant bits, ties to even
      ([float_round]).
    - the sensors, the pins and the clock are inputs of a pass; the serial
      port and the LCD are outputs that nothing reads back: the serial
      port is not modelled, and the text sent to the LCD is a function of
      the state of its own ([updateDisplay]).
    - the globals are one record, each function is a function on it, and
      the two cores interleave whole passes of [loop()] and [loop1()]. *)

From Stdlib Require Import ZArith List Bool Lia.
Import ListNotations.
Local Open Scope Z_scope.

(** ** Machine arithmetic *)

Module Machine.

Definition INT_MIN : Z := - 2 ^ 31.
Definition INT_MAX : Z := 2 ^ 31 - 1.
Definition ULONG_MOD : Z := 2 ^ 32.

(** The value of a 32-bit [int] holding the mathematical result [z]. *)
Definition wrap_int (z : Z) : Z := (z + 2 ^ 31) mod 2 ^ 32 - 2 ^ 31.

Definition int_add (a b : Z) : Z := wrap_int (a + b).
Definition int_sub (a b : Z) : Z := wrap_int (a - b).

(** [abs(x)] of the Arduino core: [x > 0 ? x : -x] on an [int]. *)
Definition int_abs (a : Z) : Z := if 0 <? a then a else wrap_int (- a).

(** [a % b] of C++: the remainder has the sign of the dividend. *)
Definition int_rem (a b : Z) : Z := Z.rem a b.

(** [unsigned long] subtraction. *)
Definition ulong_sub (a b : Z) : Z := (a - b) mod ULONG_MOD.

(** What [millis()] returns when the time since boot is [clk] ms. *)
Definition millis (clk : Z) : Z := clk mod ULONG_MOD.

(** Rounding of an integer to binary32: 24 significant bits, to nearest,
    ties to even.  Integers up to 2^24 in magnitude are exact. *)
Definition float_round (z : Z) : Z :=
  let a := Z.abs z in
  if a <=? 2 ^ 24 then z
  else
    let e := Z.log2 a - 23 in
    let q := a / 2 ^ e in
    let r := a mod 2 ^ e in
    let half := 2 ^ (e - 1) in
    let m := if r <? half then q
             else if half <? r then q + 1
             else if Z.even q then q else q + 1 in
    Z.sgn z * (m * 2 ^ e).

(** [(float) n] for an [int] n, and the binary32 difference of two
    integer-valued floats. *)
Definition float_of_int (n : Z) : Z := float_round n.
Definition float_sub (x y : Z) : Z := float_round (x - y).

End Machine.
Import Machine.

(** ** Constants of the sketch *)

Definition THERMO_TOP_OFFSET : Z := 3.
Definition THERMO_BOT_OFFSET : Z := 3.
Definition THERMO_MEAT_OFFSET : Z := 0.

Definition EMERGENCY_TEMP : Z := 250.
Definition FAN_CYCLE_TIME : Z := 60000.
Definition FAN_TEMP_DELTA_ON : Z := 30.
Definition FAN_TEMP_DELTA_OFF : Z := 15.
Definition HEATER_CYCLE_TIME : Z := 10000.

(** [float temp_buffer = 5.0]: a global that nothing assigns. *)
Definition temp_buffer : Z := 5.
Definition button_debounce_time : Z := 500.

(** ** Pins *)

Inductive PinStatus : Type := LOW | HIGH.

Definition pin_value (p : PinStatus) : Z :=
  match p with LOW => 0 | HIGH => 1 end.

(** [!digitalRead(pin)] *)
Definition pin_not (p : PinStatus) : bool :=
  match p with LOW => true | HIGH => false end.

(** ** The globals of the sketch *)

Record State : Type := mkState {
  system_on : bool;
  system_on_prev : bool;
  error_state : bool;
  heater_on : bool;
  fan_on : bool;
  last_heater_toggle_time : Z;
  last_fan_toggle_time : Z;
  timer_start_time : Z;
  top_temp : Z;
  bottom_temp : Z;
  meat_temp : Z;
  desired_temp : Z;
  desired_meat_temp : Z;
  encoder_state_last : Z;
  current_setting : Z;
  last_button_press : Z;
  (* the two output pins, as last written by digitalWrite *)
  heater_relay_pin : PinStatus;
  fan_control_pin : PinStatus
}.

(** The globals after [setup()]; [clk0] is what the CLK pin of the encoder
    read there. *)
Definition initial_state (clk0 : PinStatus) : State :=
  {| system_on := false; system_on_prev := false; error_state := false;
     heater_on := false; fan_on := false;
     last_heater_toggle_time := 0; last_fan_toggle_time := 0;
     timer_start_time := 0;
     top_temp := 0; bottom_temp := 0; meat_temp := 0;
     desired_temp := 230; desired_meat_temp := 190;
     encoder_state_last := pin_value clk0;
     current_setting := 0; last_button_press := 0;
     heater_relay_pin := LOW; fan_control_pin := LOW |}.

(** Assignments to the globals. *)

Definition set_switch (on prev : bool) (start : Z) (s : State) : State :=
  {| system_on := on; system_on_prev := prev; error_state := error_state s;
     heater_on := heater_on s; fan_on := fan_on s;
     last_heater_toggle_time := last_heater_toggle_time s;
     last_fan_toggle_time := last_fan_toggle_time s;
     timer_start_time := start;
     top_temp := top_temp s; bottom_temp := bottom_temp s;
     meat_temp := meat_temp s;
     desired_temp := desired_temp s;
     desired_meat_temp := desired_meat_temp s;
     encoder_state_last := encoder_state_last s;
     current_setting := current_setting s;
     last_button_press := last_button_press s;
     heater_relay_pin := heater_relay_pin s;
     fan_control_pin := fan_control_pin s |}.

Definition set_temps (t b m : Z) (s : State) : State :=
  {| system_on := system_on s; system_on_prev := system_on_prev s;
     error_state := error_state s;
     heater_on := heater_on s; fan_on := fan_on s;
     last_heater_toggle_time := last_heater_toggle_time s;
     last_fan_toggle_time := last_fan_toggle_time s;
     timer_start_time := timer_start_time s;
     top_temp := t; bottom_temp := b; meat_temp := m;
     desired_temp := desired_temp s;
     desired_meat_temp := desired_meat_temp s;
     encoder_state_last := encoder_state_last s;
     current_setting := current_setting s;
     last_button_press := last_button_press s;
     heater_relay_pin := heater_relay_pin s;
     fan_control_pin := fan_control_pin s |}.

Definition set_error (s : State) : State :=
  {| system_on := false; system_on_prev := system_on_prev s;
     error_state := true;
     heater_on := heater_on s; fan_on := fan_on s;
     last_heater_toggle_time := last_heater_toggle_time s;
     last_fan_toggle_time := last_fan_toggle_time s;
     timer_start_time := timer_start_time s;
     top_temp := top_temp s; bottom_temp := bottom_temp s;
     meat_temp := meat_temp s;
     desired_temp := desired_temp s;
     desired_meat_temp := desired_meat_temp s;
     encoder_state_last := encoder_state_last s;
     current_setting := current_setting s;
     last_button_press := last_button_press s;
     heater_relay_pin := heater_relay_pin s;
     fan_control_pin := fan_control_pin s |}.

Definition set_desired_temp (d : Z) (s : State) : State :=
  {| system_on := system_on s; system_on_prev := system_on_prev s;
     error_state := error_state s;
     heater_on := heater_on s; fan_on := fan_on s;
     last_heater_toggle_time := last_heater_toggle_time s;
     last_fan_toggle_time := last_fan_toggle_time s;
     timer_start_time := timer_start_time s;
     top_temp := top_temp s; bottom_temp := bottom_temp s;
     meat_temp := meat_temp s;
     desired_temp := d;
     desired_meat_temp := desired_meat_temp s;
     encoder_state_last := encoder_state_last s;
     current_setting := current_setting s;
     last_button_press := last_button_press s;
     heater_relay_pin := heater_relay_pin s;
     fan_control_pin := fan_control_pin s |}.

Definition set_desired_meat_temp (d : Z) (s : State) : State :=
  {| system_on := system_on s; system_on_prev := system_on_prev s;
     error_state := error_state s;
     heater_on := heater_on s; fan_on := fan_on s;
     last_heater_toggle_time := last_heater_toggle_time s;
     last_fan_toggle_time := last_fan_toggle_time s;
     timer_start_time := timer_start_time s;
     top_temp := top_temp s; bottom_temp := bottom_temp s;
     meat_temp := meat_temp s;
     desired_temp := desired_temp s;
     desired_meat_temp := d;
     encoder_state_last := encoder_state_last s;
     current_setting := current_setting s;
     last_button_press := last_button_press s;
     heater_relay_pin := heater_relay_pin s;
     fan_control_pin := fan_control_pin s |}.

(** [digitalWrite(HEATER_RELAY_PIN, p); heater_on = on;] and, when [stamp]
    is given, [last_heater_toggle_time = stamp;]. *)
Definition set_heater (p : PinStatus) (on : bool) (stamp : option Z)
    (s : State) : State :=
  {| system_on := system_on s; system_on_prev := system_on_prev s;
     error_state := error_state s;
     heater_on := on; fan_on := fan_on s;
     last_heater_toggle_time :=
       match stamp with Some t => t | None => last_heater_toggle_time s end;
     last_fan_toggle_time := last_fan_toggle_time s;
     timer_start_time := timer_start_time s;
     top_temp := top_temp s; bottom_temp := bottom_temp s;
     meat_temp := meat_temp s;
     desired_temp := desired_temp s;
     desired_meat_temp := desired_meat_temp s;
     encoder_state_last := encoder_state_last s;
     current_setting := current_setting s;
     last_button_press := last_button_press s;
     heater_relay_pin := p;
     fan_control_pin := fan_control_pin s |}.

Definition set_fan (p : PinStatus) (on : bool) (stamp : option Z)
    (s : State) : State :=
  {| system_on := system_on s; system_on_prev := system_on_prev s;
     error_state := error_state s;
     heater_on := heater_on s; fan_on := on;
     last_heater_toggle_time := last_heater_toggle_time s;
     last_fan_toggle_time :=
       match stamp with Some t => t | None => last_fan_toggle_time s end;
     timer_start_time := timer_start_time s;
     top_temp := top_temp s; bottom_temp := bottom_temp s;
     meat_temp := meat_temp s;
     desired_temp := desired_temp s;
     desired_meat_temp := desired_meat_temp s;
     encoder_state_last := encoder_state_last s;
     current_setting := current_setting s;
     last_button_press := last_button_press s;
     heater_relay_pin := heater_relay_pin s;
     fan_control_pin := p |}.

Definition set_encoder_state_last (v : Z) (s : State) : State :=
  {| system_on := system_on s; system_on_prev := system_on_prev s;
     error_state := error_state s;
     heater_on := heater_on s; fan_on := fan_on s;
     last_heater_toggle_time := last_heater_toggle_time s;
     last_fan_toggle_time := last_fan_toggle_time s;
     timer_start_time := timer_start_time s;
     top_temp := top_temp s; bottom_temp := bottom_temp s;
     meat_temp := meat_temp s;
     desired_temp := desired_temp s;
     desired_meat_temp := desired_meat_temp s;
     encoder_state_last := v;
     current_setting := current_setting s;
     last_button_press := last_button_press s;
     heater_relay_pin := heater_relay_pin s;
     fan_control_pin := fan_control_pin s |}.

Definition set_button (setting stamp : Z) (s : State) : State :=
  {| system_on := system_on s; system_on_prev := system_on_prev s;
     error_state := error_state s;
     heater_on := heater_on s; fan_on := fan_on s;
     last_heater_toggle_time := last_heater_toggle_time s;
     last_fan_toggle_time := last_fan_toggle_time s;
     timer_start_time := timer_start_time s;
     top_temp := top_temp s; bottom_temp := bottom_temp s;
     meat_temp := meat_temp s;
     desired_temp := desired_temp s;
     desired_meat_temp := desired_meat_temp s;
     encoder_state_last := encoder_state_last s;
     current_setting := setting;
     last_button_press := stamp;
     heater_relay_pin := heater_relay_pin s;
     fan_control_pin := fan_control_pin s |}.

(** ** Core 0: the control loop *)

(** What one pass of [loop()] reads from the outside: the switch pin, the
    three thermocouples (each the [int] that the cast of
    [readFahrenheit()] yields) and the clock (milliseconds since boot) at
    the points where the pass looks at it or drives an output. *)
Record LoopInput : Type := mkLoopInput {
  in_switch : PinStatus;
  in_top : Z;
  in_bottom : Z;
  in_meat : Z;
  clk_switch : Z;
  clk_heater : Z;
  clk_fan : Z
}.

(** Lines 176-185: read the switch, restart the session timer on a change
    to on, remember the switch. *)
Definition read_switch (i : LoopInput) (s : State) : State :=
  let on := pin_not (in_switch i) in
  if negb (Bool.eqb on (system_on_prev s)) then
    set_switch on on
      (if on then millis (clk_switch i) else timer_start_time s) s
  else set_switch on (system_on_prev s) (timer_start_time s) s.

(** Lines 192-194. *)
Definition clamp_temp (t : Z) : Z :=
  if 999 <? t then 999 else t.

(** Lines 188-190: the value of a channel before the clamp. *)
Inductive Channel : Type := Top | Bottom | Probe.

Definition offset (c : Channel) : Z :=
  match c with
  | Top => THERMO_TOP_OFFSET
  | Bottom => THERMO_BOT_OFFSET
  | Probe => THERMO_MEAT_OFFSET
  end.

Definition unclamped (c : Channel) (raw : Z) : Z := int_add raw (offset c).

Definition reading (c : Channel) (raw : Z) : Z := clamp_temp (unclamped c raw).

Definition raw_of (c : Channel) (i : LoopInput) : Z :=
  match c with Top => in_top i | Bottom => in_bottom i | Probe => in_meat i end.

Definition stored (c : Channel) (s : State) : Z :=
  match c with
  | Top => top_temp s | Bottom => bottom_temp s | Probe => meat_temp s
  end.

(** Lines 188-194. *)
Definition read_temperatures (i : LoopInput) (s : State) : State :=
  set_temps (reading Top (in_top i)) (reading Bottom (in_bottom i))
            (reading Probe (in_meat i)) s.

(** Line 197. *)
Definition emergency (s : State) : bool :=
  (EMERGENCY_TEMP <=? top_temp s) || (EMERGENCY_TEMP <=? bottom_temp s)
  || (EMERGENCY_TEMP <=? meat_temp s).

(** Lines 197-200. *)
Definition check_emergency (s : State) : State :=
  if emergency s then set_error s else s.

(** Lines 272-274 of [controlHeater]. *)
Definition converge_target (s : State) : State :=
  if desired_meat_temp s <=? meat_temp s
  then set_desired_temp (desired_meat_temp s) s
  else s.

(** The three parts of the conditions of lines 277-282. *)
Definition below_band (s : State) : bool :=
  float_of_int (top_temp s)
    <? float_sub (float_of_int (desired_temp s)) temp_buffer.

Definition at_target (s : State) : bool :=
  (desired_temp s <=? top_temp s) || (desired_temp s <=? bottom_temp s).

Definition heater_dwell_over (current_time : Z) (s : State) : bool :=
  HEATER_CYCLE_TIME <=? ulong_sub current_time (last_heater_toggle_time s).

(** Lines 277-286 of [controlHeater]. *)
Definition switch_heater (current_time : Z) (s : State) : State :=
  if negb (heater_on s) && below_band s && heater_dwell_over current_time s
  then set_heater HIGH true (Some current_time) s
  else if heater_on s && at_target s && heater_dwell_over current_time s
  then set_heater LOW false (Some current_time) s
  else s.

(** [controlHeater()]; [current_time] is what its [millis()] returned. *)
Definition controlHeater (current_time : Z) (s : State) : State :=
  switch_heater current_time (converge_target s).

(** Line 292: [float temp_difference = abs(top_temp - bottom_temp)]. *)
Definition temp_difference (s : State) : Z :=
  float_of_int (int_abs (int_sub (top_temp s) (bottom_temp s))).

Definition fan_dwell_over (current_time : Z) (s : State) : bool :=
  FAN_CYCLE_TIME <=? ulong_sub current_time (last_fan_toggle_time s).

(** [controlFan()]; [current_time] is what its [millis()] returned. *)
Definition controlFan (current_time : Z) (s : State) : State :=
  if negb (fan_on s) && (float_of_int FAN_TEMP_DELTA_ON <? temp_difference s)
     && fan_dwell_over current_time s
  then set_fan HIGH true (Some current_time) s
  else if fan_on s && (temp_difference s <=? float_of_int FAN_TEMP_DELTA_OFF)
          && fan_dwell_over current_time s
  then set_fan LOW false (Some current_time) s
  else s.

(** Lines 211-214: the branch taken when the system is off or in error. *)
Definition force_off (s : State) : State :=
  set_fan LOW false None (set_heater LOW false None s).

(** Line 203. *)
Definition running (s : State) : bool := system_on s && negb (error_state s).

(** Lines 203-215. *)
Definition control (i : LoopInput) (s : State) : State :=
  if running s
  then controlFan (millis (clk_fan i)) (controlHeater (millis (clk_heater i)) s)
  else force_off s.

(** One pass of [loop()]. *)
Definition loop (i : LoopInput) (s : State) : State :=
  control i (check_emergency (read_temperatures i (read_switch i s))).

(** The state of the system as the display shows it (lines 340-349). *)
Inductive SystemState : Type := Off | Running | Error.

Definition system_state (s : State) : SystemState :=
  if error_state s then Error
  else if system_on s then Running else Off.

(** ** Core 1: encoder and button *)

Record Loop1Input : Type := mkLoop1Input {
  in_clk : PinStatus;
  in_dt : PinStatus;
  in_btn : PinStatus;
  (* the clock at the two calls of millis() in handleButton *)
  clk_check : Z;
  clk_press : Z
}.

(** A tick: the CLK pin changed and now reads 1 (line 241). *)
Definition tick (clk : PinStatus) (s : State) : bool :=
  negb (pin_value clk =? encoder_state_last s) && (pin_value clk =? 1).

(** Line 242: clockwise when DT differs from CLK. *)
Definition clockwise (clk dt : PinStatus) : bool :=
  negb (pin_value dt =? pin_value clk).

(** Lines 244-255: add [d] to the selected target. *)
Definition adjust (d : Z) (s : State) : State :=
  if current_setting s =? 0
  then set_desired_temp (int_add (desired_temp s) d) s
  else set_desired_meat_temp (int_add (desired_meat_temp s) d) s.

Definition handleEncoder (clk dt : PinStatus) (s : State) : State :=
  let s1 :=
    if tick clk s
    then if clockwise clk dt then adjust 2 s else adjust (-2) s
    else s in
  set_encoder_state_last (pin_value clk) s1.

(** Line 262. *)
Definition press_accepted (btn : PinStatus) (t_check : Z) (s : State) : bool :=
  match btn with
  | LOW => button_debounce_time <? ulong_sub t_check (last_button_press s)
  | HIGH => false
  end.

Definition handleButton (btn : PinStatus) (t_check t_press : Z) (s : State)
    : State :=
  if press_accepted btn t_check s
  then set_button (int_rem (int_add (current_setting s) 1) 2) t_press s
  else s.

(** One pass of [loop1()]. *)
Definition loop1 (j : Loop1Input) (s : State) : State :=
  handleButton (in_btn j) (millis (clk_check j)) (millis (clk_press j))
    (handleEncoder (in_clk j) (in_dt j) s).

(** ** Histories

    The two cores run their loops side by side on the same globals; a
    history lists the passes in the order in which they take effect. *)

Inductive Pass : Type :=
| Core0 (i : LoopInput)
| Core1 (j : Loop1Input).

Definition step (s : State) (p : Pass) : State :=
  match p with
  | Core0 i => loop i s
  | Core1 j => loop1 j s
  end.

Definition run (s : State) (h : list Pass) : State := fold_left step h s.

(** The passes of core 0 alone. *)
Definition run_loop (s : State) (h : list LoopInput) : State :=
  fold_left (fun s i => loop i s) h s.

(** ** Vocabulary of the properties *)

(** The part of a pass before the actuators are driven. *)
Definition sense (i : LoopInput) (s : State) : State :=
  check_emergency (read_temperatures i (read_switch i s)).

(** Whether the readings of a pass reach the emergency threshold. *)
Definition tripping (i : LoopInput) : bool :=
  (EMERGENCY_TEMP <=? reading Top (in_top i))
  || (EMERGENCY_TEMP <=? reading Bottom (in_bottom i))
  || (EMERGENCY_TEMP <=? reading Probe (in_meat i)).

(** Both actuators off, in the flags and on the pins. *)
Definition all_off (s : State) : Prop :=
  heater_on s = false /\ fan_on s = false
  /\ heater_relay_pin s = LOW /\ fan_control_pin s = LOW.

Definition shut_down (s : State) : Prop :=
  system_state s = Error /\ all_off s.

(** The states at the end of each pass of a history. *)
Fixpoint trace (s : State) (h : list Pass) : list State :=
  match h with
  | [] => []
  | p :: h' => step s p :: trace (step s p) h'
  end.

(** No pass of [loop()] in [h] sees the switch on after having seen it
    off; [prev] is what the last pass before [h] saw. *)
Fixpoint no_rising_edge (prev : bool) (h : list Pass) : bool :=
  match h with
  | [] => true
  | Core0 i :: h' =>
      negb (negb prev && pin_not (in_switch i))
      && no_rising_edge (pin_not (in_switch i)) h'
  | Core1 _ :: h' => no_rising_edge prev h'
  end.

(** *** Ranges *)

(** A reading as [loop()] stores it (at most 999) that binary32 holds
    exactly. *)
Definition in_range (t : Z) : Prop := - 2 ^ 24 <= t <= 999.

(** An [int] to which 2 can be added and from which 2 can be taken. *)
Definition adjustable (v : Z) : Prop := INT_MIN + 2 <= v <= INT_MAX - 2.

(** *** The spread *)

(** |Top - Bottom| of the readings stored in a state and of those that a
    pass of [loop()] stores. *)
Definition spread (s : State) : Z := Z.abs (top_temp s - bottom_temp s).

Definition spread_of (i : LoopInput) : Z :=
  Z.abs (reading Top (in_top i) - reading Bottom (in_bottom i)).

(** A pass that keeps the system running (switch on, no reading at the
    emergency threshold) with a spread inside the hysteresis band; the
    passes of core 1 are of no concern. *)
Definition in_band (p : Pass) : Prop :=
  match p with
  | Core0 i =>
      in_switch i = LOW /\ tripping i = false
      /\ in_range (reading Top (in_top i))
      /\ in_range (reading Bottom (in_bottom i))
      /\ FAN_TEMP_DELTA_OFF < spread_of i <= FAN_TEMP_DELTA_ON
  | Core1 _ => True
  end.

(** *** The selector *)

(** [current_setting]: 0 selects the enclosure target, anything else the
    probe target (lines 244, 251). *)
Inductive Selector : Type := Enclosure | ProbeTarget.

Definition selector (s : State) : Selector :=
  if current_setting s =? 0 then Enclosure else ProbeTarget.

Definition other (x : Selector) : Selector :=
  match x with Enclosure => ProbeTarget | ProbeTarget => Enclosure end.

Definition target (x : Selector) (s : State) : Z :=
  match x with
  | Enclosure => desired_temp s
  | ProbeTarget => desired_meat_temp s
  end.

(** The step of a tick: +2 clockwise, -2 counter-clockwise. *)
Definition tick_step (clk dt : PinStatus) : Z :=
  if clockwise clk dt then 2 else -2.

(** *** Toggles and their instants *)

Definition pin_eqb (p q : PinStatus) : bool :=
  match p, q with LOW, LOW | HIGH, HIGH => true | _, _ => false end.

(** Whether [controlHeater()] ran in the pass and switched the heater:
    the running branch was taken and the flag came out changed. *)
Definition heater_switched (i : LoopInput) (s : State) : bool :=
  let s1 := sense i s in
  running s1
  && negb (Bool.eqb (heater_on (controlHeater (millis (clk_heater i)) s1))
                    (heater_on s1)).

Definition fan_switched (i : LoopInput) (s : State) : bool :=
  let s1 := sense i s in
  let s2 := controlHeater (millis (clk_heater i)) s1 in
  running s1
  && negb (Bool.eqb (fan_on (controlFan (millis (clk_fan i)) s2)) (fan_on s2)).

(** Whether a pass changed the level of an output pin, whichever branch
    drove it. *)
Definition heater_changed (i : LoopInput) (s : State) : bool :=
  negb (pin_eqb (heater_relay_pin (loop i s)) (heater_relay_pin s)).

Definition fan_changed (i : LoopInput) (s : State) : bool :=
  negb (pin_eqb (fan_control_pin (loop i s)) (fan_control_pin s)).

Section Instants.

Variable happened : LoopInput -> State -> bool.
Variable clock : LoopInput -> Z.

(** The instants (ms since boot) of the passes of [loop()] in which
    something happened, in the course of a history. *)
Fixpoint instants (s : State) (h : list Pass) : list Z :=
  match h with
  | [] => []
  | Core0 i :: h' =>
      (if happened i s then [clock i] else []) ++ instants (loop i s) h'
  | Core1 j :: h' => instants (loop1 j s) h'
  end.

(** The instants of all the passes of [loop()]. *)
Fixpoint clocks (h : list Pass) : list Z :=
  match h with
  | [] => []
  | Core0 i :: h' => clock i :: clocks h'
  | Core1 _ :: h' => clocks h'
  end.

End Instants.

(** When the controllers switched their actuator. *)
Definition heater_toggles : State -> list Pass -> list Z :=
  instants heater_switched clk_heater.
Definition fan_toggles : State -> list Pass -> list Z :=
  instants fan_switched clk_fan.

(** When the output pins changed their level. *)
Definition heater_changes : State -> list Pass -> list Z :=
  instants heater_changed clk_heater.
Definition fan_changes : State -> list Pass -> list Z :=
  instants fan_changed clk_fan.

Definition heater_clocks : list Pass -> list Z := clocks clk_heater.
Definition fan_clocks : list Pass -> list Z := clocks clk_fan.

(** Any two instants of the list, taken in order, are at least [d]
    apart. *)
Fixpoint spaced (d : Z) (l : list Z) : bool :=
  match l with
  | [] => true
  | a :: t => forallb (fun b => d <=? b - a) t && spaced d t
  end.

(** The clock does not run backwards: the instants are in ascending
    order, from [lo] on. *)
Fixpoint ascending (lo : Z) (l : list Z) : bool :=
  match l with
  | [] => true
  | a :: t => (lo <=? a) && ascending a t
  end.

(** ** Sample states, passes and histories *)

(** A pass of [loop()] at [clk] ms: the switch pin and, for the three
    channels, what the casts of [readFahrenheit()] gave. *)
Definition pass_at (clk : Z) (sw : PinStatus) (t b m : Z) : LoopInput :=
  {| in_switch := sw; in_top := t; in_bottom := b; in_meat := m;
     clk_switch := clk; clk_heater := clk; clk_fan := clk |}.

(** Switch on and the top channel at 247 + 3 = 250 degrees. *)
Definition pass_trip : LoopInput := pass_at 20000 LOW 247 200 150.

(** Switch off, then on again, everything cool. *)
Definition pass_off : LoopInput := pass_at 20100 HIGH 100 100 100.
Definition pass_on : LoopInput := pass_at 20200 LOW 100 100 100.

(** The Top thermocouple gives 998 and the Bottom one 500. *)
Definition pass_warm : LoopInput := pass_at 1000 LOW 998 500 100.

(** Two passes that differ only above the clamp. *)
Definition pass_glitch : LoopInput := pass_at 1000 HIGH 5000 100 100.
Definition pass_glitch' : LoopInput := pass_at 1000 HIGH 2000 100 100.

(** Running, with the heater on since 70000 ms and the fan since 50 ms
    later. *)
Definition state_just_switched : State :=
  {| system_on := true; system_on_prev := true; error_state := false;
     heater_on := true; fan_on := true;
     last_heater_toggle_time := 70000; last_fan_toggle_time := 70050;
     timer_start_time := 2000;
     top_temp := 100; bottom_temp := 60; meat_temp := 50;
     desired_temp := 230; desired_meat_temp := 190;
     encoder_state_last := 0; current_setting := 0; last_button_press := 0;
     heater_relay_pin := HIGH; fan_control_pin := HIGH |}.

(** The switch goes off 100 ms after the heater came on. *)
Definition pass_early_release : LoopInput := pass_at 70100 HIGH 97 57 50.


(** Running, with the fan on since 70000 ms; Top = 131, Bottom = 100. *)
Definition state_fan_on : State :=
  {| system_on := true; system_on_prev := true; error_state := false;
     heater_on := false; fan_on := true;
     last_heater_toggle_time := 0; last_fan_toggle_time := 70000;
     timer_start_time := 2000;
     top_temp := 131; bottom_temp := 100; meat_temp := 50;
     desired_temp := 230; desired_meat_temp := 190;
     encoder_state_last := 0; current_setting := 0; last_button_press := 0;
     heater_relay_pin := LOW; fan_control_pin := HIGH |}.

(** Two running passes with the spread at 30 and at 19 degrees. *)
Definition history_in_band : list Pass :=
  [Core0 (pass_at 70100 LOW 127 97 50); Core0 (pass_at 70200 LOW 116 97 50)].

(** The globals after [setup()] with Top = 224, Bottom = 220, Probe = 100
    stored: the heater scenario of the specification. *)
Definition state_heater_scenario : State :=
  set_temps 224 220 100 (initial_state LOW).

(** The globals after [setup()] with Top = 200, Bottom = 150 stored: the
    fan scenario of the specification. *)
Definition state_fan_scenario : State :=
  set_temps 200 150 100 (initial_state LOW).

(** Enclosure target 230, probe target 190, and the probe reads 190. *)
Definition state_probe_done : State :=
  set_temps 200 195 190 (initial_state LOW).

(** The enclosure target turned down to the least [int] but two. *)
Definition state_target_floor : State :=
  set_desired_temp (INT_MIN + 2) (initial_state LOW).

(** After an emergency: two passes with cool readings and the switch held
    on. *)
Definition history_cooled : list Pass :=
  [Core0 (pass_at 20100 LOW 100 100 100); Core0 (pass_at 20200 LOW 90 90 90)].

(** The heater and the fan come on at 60000 ms (Top = 103, Bottom = 60)
    and the switch goes off 100 ms later. *)
Definition history_cut_short : list Pass :=
  [Core0 (pass_at 60000 LOW 100 57 50);
   Core0 (pass_at 60100 HIGH 100 57 50)].

(** The heater comes on at 10000 ms, goes off at 20000 ms as Top reaches
    the target, is asked to come on again 5 s later and does so at
    30000 ms. *)
Definition history_heating : list Pass :=
  [Core0 (pass_at 10000 LOW 100 100 100);
   Core0 (pass_at 20000 LOW 230 200 100);
   Core0 (pass_at 25000 LOW 100 100 100);
   Core0 (pass_at 30000 LOW 100 100 100)].

(** Enclosure target 150, probe target 190, and the probe reads 190. *)
Definition state_low_target : State :=
  set_temps 200 195 190 (set_desired_temp 150 (initial_state LOW)).

(** The probe reads 195 with the targets at 230 and 190; the button is
    pressed (the selector goes to the probe target), the encoder is turned
    one tick clockwise (the probe target goes to 192), and the loop runs
    again with the probe at 195. *)
Definition history_retarget : list Pass :=
  [Core0 (pass_at 10000 LOW 197 192 195);
   Core1 {| in_clk := LOW; in_dt := LOW; in_btn := LOW;
            clk_check := 10005; clk_press := 10005 |};
   Core1 {| in_clk := HIGH; in_dt := LOW; in_btn := HIGH;
            clk_check := 10010; clk_press := 10010 |};
   Core0 (pass_at 10100 LOW 197 192 195)].

(** * The rest of the sketch: the display *)

From Stdlib Require Import String Ascii DecimalString.

(** ** Text *)

(** [String(n)] of the Arduino core for an [int]: the decimal digits of
    [n], with a minus sign before them when [n] is negative. *)
Definition String_of_int (n : Z) : string :=
  NilZero.string_of_int (Z.to_int n).

(** The character of a decimal digit, and the two digits of a number below
    100. *)
Definition digit (d : Z) : ascii := ascii_of_nat (48 + Z.to_nat d).

Definition two_digits (n : Z) : string :=
  String (digit (n / 10)) (String (digit (n mod 10)) EmptyString).

(** Lines 350-355: spaces are added at the end until the text is 20
    characters long. *)
Fixpoint add_spaces (n : nat) (text : string) : string :=
  match n with
  | O => text
  | S k => add_spaces k (text ++ " ")%string
  end.

Definition pad_to_20 (text : string) : string :=
  if (String.length text <? 20)%nat
  then add_spaces (20 - String.length text) text
  else text.

(** ** [getElapsedTime()] *)

(** The three numbers of lines 370-376, for an elapsed time in ms.  The
    time is an [unsigned long] below 2^32, so the hours are below 1194 and
    all three fit the [int] they are stored in. *)
Definition hours_of (elapsed_time : Z) : Z := elapsed_time / 3600000.
Definition minutes_of (elapsed_time : Z) : Z :=
  (elapsed_time mod 3600000) / 60000.
Definition seconds_of (elapsed_time : Z) : Z :=
  (elapsed_time mod 60000) / 1000.

(** Lines 380-381, 382-383, 384-385: a number, a zero before it when it is
    below 10, and its unit after it. *)
Definition time_field (n : Z) (unit : string) : string :=
  ((if (n <? 10)%Z then "0" else EmptyString)
   ++ (String_of_int n ++ unit))%string.

(** Lines 379-387: the text for an elapsed time. *)
Definition time_text (elapsed_time : Z) : string :=
  (time_field (hours_of elapsed_time) "h"
   ++ time_field (minutes_of elapsed_time) "m"
   ++ time_field (seconds_of elapsed_time) "s")%string.

(** [getElapsedTime()]; [current_time] is what its [millis()] returned. *)
Definition getElapsedTime (current_time : Z) (s : State) : string :=
  time_text (ulong_sub current_time (timer_start_time s)).

(** ** [updateDisplay()] *)

(** Row 1, lines 310-315. *)
Definition title_text (current_time : Z) (s : State) : string :=
  ("Smokey! "
   ++ (if negb (error_state s) && system_on s
       then "   " ++ getElapsedTime current_time s
       else if negb (system_on s) then "            "
       else EmptyString))%string.

(** Row 2, lines 318-327. *)
Definition air_text (s : State) : string :=
  ("Air : "
   ++ (if (bottom_temp s <? 100)%Z then " " else EmptyString)
   ++ String_of_int (bottom_temp s)
   ++ "-"
   ++ (if (top_temp s <? 100)%Z then " " else EmptyString)
   ++ String_of_int (top_temp s)
   ++ " ->"
   ++ (if (current_setting s =? 0)%Z then "*" else " ")
   ++ (if (desired_temp s <? 100)%Z then " " else EmptyString)
   ++ String_of_int (desired_temp s))%string.

(** Row 3, lines 330-336. *)
Definition meat_text (s : State) : string :=
  ("Meat:     "
   ++ (if (meat_temp s <? 10)%Z then "  "
       else if (meat_temp s <? 100)%Z then " " else EmptyString)
   ++ String_of_int (meat_temp s)
   ++ " ->"
   ++ (if (current_setting s =? 1)%Z then "*" else " ")
   ++ String_of_int (desired_meat_temp s))%string.

(** Row 4 before the padding, lines 339-349. *)
Definition status_line (s : State) : string :=
  (if error_state s then "ERROR: HIGH TEMP!!!!"
   else if negb (system_on s) then "System: OFF"
   else "H:" ++ (if heater_on s then "ON " else "OFF")
        ++ " F:" ++ (if fan_on s then "ON " else "OFF"))%string.

Definition status_text (s : State) : string := pad_to_20 (status_line s).

(** What is printed from the first column of the four rows of the LCD. *)
Record Lcd : Type := mkLcd {
  row0 : string;
  row1 : string;
  row2 : string;
  row3 : string
}.

(** [updateDisplay()]; [current_time] is what the [millis()] of
    [getElapsedTime()] returns if it is called. *)
Definition updateDisplay (current_time : Z) (s : State) : Lcd :=
  {| row0 := title_text current_time s;
     row1 := air_text s;
     row2 := meat_text s;
     row3 := status_text s |}.

(** The width of the LCD (line 98: 20 columns, 4 rows). *)
Definition LCD_COLS : nat := 20.

(** * More vocabulary *)

(** The two targets. *)
Definition targets (s : State) : Z * Z :=
  (desired_temp s, desired_meat_temp s).


(** The instants (ms since boot, at the check of line 262) of the passes
    of [loop1()] in which the button handler accepted a press. *)
Fixpoint press_instants (s : State) (h : list Pass) : list Z :=
  match h with
  | [] => []
  | Core0 i :: h' => press_instants (loop i s) h'
  | Core1 j :: h' =>
      (if press_accepted (in_btn j) (millis (clk_check j))
            (handleEncoder (in_clk j) (in_dt j) s)
       then [clk_check j] else [])
      ++ press_instants (loop1 j s) h'
  end.

(** The instants at which the passes of [loop1()] call [millis()], in the
    order of the calls. *)
Fixpoint button_clocks (h : list Pass) : list Z :=
  match h with
  | [] => []
  | Core0 _ :: h' => button_clocks h'
  | Core1 j :: h' => clk_check j :: clk_press j :: button_clocks h'
  end.

(** All the passes of [loop()] in a history drive the heater (the fan)
    before the instant [t]. *)
Fixpoint heater_before (t : Z) (h : list Pass) : bool :=
  match h with
  | [] => true
  | Core0 i :: h' =>
      (0 <=? clk_heater i) && (clk_heater i <? t) && heater_before t h'
  | Core1 _ :: h' => heater_before t h'
  end.

Fixpoint fan_before (t : Z) (h : list Pass) : bool :=
  match h with
  | [] => true
  | Core0 i :: h' => (0 <=? clk_fan i) && (clk_fan i <? t) && fan_before t h'
  | Core1 _ :: h' => fan_before t h'
  end.

(** ** More samples *)

(** A pass of [loop1()] at [clk] ms. *)
Definition pass1_at (clk : Z) (c d b : PinStatus) : Loop1Input :=
  {| in_clk := c; in_dt := d; in_btn := b;
     clk_check := clk; clk_press := clk |}.

(** The button is held down through four passes of [loop1()], 5 ms and
    then twice 600 ms apart. *)
Definition history_held_button : list Pass :=
  [Core1 (pass1_at 1000 LOW LOW LOW); Core1 (pass1_at 1005 LOW LOW LOW);
   Core1 (pass1_at 1605 LOW LOW LOW); Core1 (pass1_at 2205 LOW LOW LOW)].

(** The switch is on and Top is far below the target from 1 s after
    power-up, a pass every 3 s. *)
Definition history_first_seconds : list Pass :=
  [Core0 (pass_at 1000 LOW 80 20 70); Core0 (pass_at 4000 LOW 80 20 70);
   Core0 (pass_at 7000 LOW 80 20 70); Core0 (pass_at 9999 LOW 80 20 70)].

(** Running with the enclosure target already at the probe target 190 and
    the probe at 195. *)
Definition state_converged : State :=
  set_temps 180 175 195 (set_desired_temp 190 (initial_state LOW)).

(** Switch on, Top = 183, Bottom = 178, Probe = 195. *)
Definition pass_probe_high : LoopInput := pass_at 50000 LOW 180 175 195.

(** Running since 2000 ms, at 3727000 ms: 1 h 2 min 5 s later. *)
Definition state_session : State := state_just_switched.
Definition clock_session : Z := 3727000.

(** The sensor values for which the sum with the offset of the channel is
    an [int]. *)
Definition raw_in_range (c : Channel) (raw : Z) : Prop :=
  INT_MIN <= raw <= INT_MAX - offset c.

(** The Top thermocouple gives 247, the others are cool. *)
Definition pass_top_247 : LoopInput := pass_at 30000 LOW 247 100 100.

(** A pass of the control loop that keeps the system running with Top
    inside the band of the heater (from 5 degrees below the target [tgt]
    up to it, the target excluded), Bottom below the target and the probe
    below its target [ptgt]. *)
Definition in_dead_band (tgt ptgt : Z) (i : LoopInput) : Prop :=
  in_switch i = LOW /\ tripping i = false
  /\ in_range (reading Top (in_top i))
  /\ tgt - 5 <= reading Top (in_top i) < tgt
  /\ reading Bottom (in_bottom i) < tgt
  /\ reading Probe (in_meat i) < ptgt.

(** Top at 226 and at 229 with the target at 230. *)
Definition history_dead_band : list LoopInput :=
  [pass_at 200000 LOW 223 200 100; pass_at 200100 LOW 226 200 100].

(** A tick clockwise and a press of the button in the same pass. *)
Definition pass_tick_and_press : Loop1Input :=
  pass1_at 1000 HIGH LOW LOW.

(** The error is latched and the switch is on. *)
Definition state_error_on : State :=
  loop pass_on (loop pass_trip (initial_state LOW)).
(** * Properties *)

(** ** Machine arithmetic *)

Lemma wrap_int_exact (z : Z) : INT_MIN <= z <= INT_MAX -> wrap_int z = z.
Proof.
  unfold INT_MIN, INT_MAX, wrap_int; intros H.
  rewrite Z.mod_small; lia.
Qed.

Lemma wrap_int_range (z : Z) : INT_MIN <= wrap_int z <= INT_MAX.
Proof.
  unfold INT_MIN, INT_MAX, wrap_int.
  pose proof (Z.mod_pos_bound (z + 2 ^ 31) (2 ^ 32) ltac:(lia)); lia.
Qed.

Lemma int_abs_exact (z : Z) :
  INT_MIN < z <= INT_MAX -> int_abs z = Z.abs z.
Proof.
  unfold int_abs; intros H.
  destruct (Z.ltb_spec 0 z); [lia|].
  rewrite wrap_int_exact; unfold INT_MIN, INT_MAX in *; lia.
Qed.

Lemma float_round_exact (z : Z) : Z.abs z <= 2 ^ 24 -> float_round z = z.
Proof.
  unfold float_round; intros H.
  destruct (Z.leb_spec (Z.abs z) (2 ^ 24)); [reflexivity | lia].
Qed.

(** The magnitude of a rounded integer beyond 2^24 stays at 2^24 or
    above: rounding never crosses an exact value. *)
Lemma float_round_magnitude (z : Z) :
  2 ^ 24 < Z.abs z ->
  float_round z = Z.sgn z * Z.abs (float_round z)
  /\ 2 ^ 24 <= Z.abs (float_round z).
Proof.
  unfold float_round; intros H.
  destruct (Z.leb_spec (Z.abs z) (2 ^ 24)); [lia|].
  set (a := Z.abs z) in *.
  set (e := Z.log2 a - 23).
  assert (Ha : 0 < a) by lia.
  pose proof (Z.log2_spec a Ha) as [Hlo Hhi].
  assert (Hk : 24 <= Z.log2 a).
  { apply Z.log2_le_pow2; lia. }
  assert (He : 1 <= e) by (unfold e; lia).
  assert (Hp : 2 ^ Z.log2 a = 2 ^ 23 * 2 ^ e).
  { rewrite <- Z.pow_add_r by lia. f_equal. unfold e. lia. }
  assert (H2e : 2 <= 2 ^ e).
  { change 2 with (2 ^ 1) at 1. apply Z.pow_le_mono_r; lia. }
  assert (Hq : 2 ^ 23 <= a / 2 ^ e).
  { apply Z.div_le_lower_bound; lia. }
  set (q := a / 2 ^ e) in *.
  set (m := if a mod 2 ^ e <? 2 ^ (e - 1) then q
            else if 2 ^ (e - 1) <? a mod 2 ^ e then q + 1
            else if Z.even q then q else q + 1).
  assert (Hm : q <= m).
  { unfold m. destruct (_ <? _); [lia|].
    destruct (_ <? _); [lia|]. destruct (Z.even q); lia. }
  assert (Hme : 2 ^ 24 <= m * 2 ^ e) by nia.
  assert (Hs : Z.abs (Z.sgn z * (m * 2 ^ e)) = m * 2 ^ e).
  { assert (Hz : Z.sgn z = 1 \/ Z.sgn z = -1) by lia.
    destruct Hz as [-> | ->]; lia. }
  rewrite Hs. split; [reflexivity | exact Hme].
Qed.

Lemma float_round_above (z : Z) : 2 ^ 24 < z -> 2 ^ 24 <= float_round z.
Proof.
  intros H. destruct (float_round_magnitude z) as [E B]; [lia|].
  rewrite E. rewrite Z.sgn_pos by lia. lia.
Qed.

Lemma float_round_below (z : Z) : z < - 2 ^ 24 -> float_round z <= - 2 ^ 24.
Proof.
  intros H. destruct (float_round_magnitude z) as [E B]; [lia|].
  rewrite E. rewrite Z.sgn_neg by lia. lia.
Qed.

(** Comparing a rounded integer with an exact one below 2^24 gives what
    the integers give (at 2^24 itself it does not: 2^24 + 1 rounds to
    2^24). *)
Lemma float_round_lt_exact (c z : Z) :
  - 2 ^ 24 <= c < 2 ^ 24 -> (c < float_round z <-> c < z).
Proof.
  intros Hc.
  destruct (Z_le_gt_dec (Z.abs z) (2 ^ 24)) as [Hz|Hz].
  - rewrite float_round_exact by assumption. tauto.
  - pose proof (float_round_below z) as Hlo.
    pose proof (float_round_above z) as Hhi.
    change (2 ^ 24) with 16777216 in *.
    destruct (Z_lt_le_dec z 0); split; intros; lia.
Qed.

Lemma float_round_le_exact (c z : Z) :
  - 2 ^ 24 <= c < 2 ^ 24 -> (float_round z <= c <-> z <= c).
Proof.
  intros Hc. pose proof (float_round_lt_exact c z Hc) as [H1 H2].
  split; intros H; destruct (Z_lt_le_dec c z) as [L|L]; lia.
Qed.

Lemma ulong_sub_millis (a b : Z) :
  ulong_sub (millis a) (millis b) = (a - b) mod ULONG_MOD.
Proof.
  unfold ulong_sub, millis.
  rewrite Zminus_mod_idemp_l, Zminus_mod_idemp_r. reflexivity.
Qed.

(** Within 2^32 ms (some 49.7 days) of an instant, the difference of the
    two values of [millis()] is the time gone by. *)
Lemma ulong_sub_real (a b : Z) :
  0 <= a - b < ULONG_MOD -> ulong_sub (millis a) (millis b) = a - b.
Proof. intros H. rewrite ulong_sub_millis. apply Z.mod_small, H. Qed.

(** A wrapped difference of two instants that reaches [d] means that at
    least [d] milliseconds went by. *)
Lemma elapsed_real (a b d : Z) :
  b <= a -> d <= ulong_sub (millis a) (millis b) -> d <= a - b.
Proof.
  intros Hab H. rewrite ulong_sub_millis in H. unfold ULONG_MOD in H.
  destruct (Z_lt_le_dec (a - b) (2 ^ 32)).
  - rewrite Z.mod_small in H by lia. exact H.
  - pose proof (Z.mod_pos_bound (a - b) (2 ^ 32) ltac:(lia)). lia.
Qed.

(** Rounding on a few values around 2^24 and 2^25. *)
Example float_round_samples :
  map float_round [16777217; 16777219; 33554434; 33554438; -16777217; 999]
  = [16777216; 16777220; 33554432; 33554440; -16777216; 999].
Proof. reflexivity. Qed.

(** ** What each function leaves alone *)

(** Closed goals are settled by evaluation. *)
Ltac evaluate := vm_compute; first [reflexivity | discriminate].

Ltac branch :=
  repeat match goal with
         | |- context [if ?b then _ else _] => destruct b eqn:?
         end.

Section Frames.

Variables (t : Z) (s : State).

Lemma converge_target_frame :
  let s' := converge_target s in
  (system_on s', system_on_prev s', error_state s', heater_on s', fan_on s')
  = (system_on s, system_on_prev s, error_state s, heater_on s, fan_on s)
  /\ (last_heater_toggle_time s', last_fan_toggle_time s')
     = (last_heater_toggle_time s, last_fan_toggle_time s)
  /\ (top_temp s', bottom_temp s', meat_temp s', desired_meat_temp s')
     = (top_temp s, bottom_temp s, meat_temp s, desired_meat_temp s)
  /\ (heater_relay_pin s', fan_control_pin s')
     = (heater_relay_pin s, fan_control_pin s).
Proof. unfold converge_target; branch; repeat split. Qed.

Lemma switch_heater_frame :
  let s' := switch_heater t s in
  (system_on s', system_on_prev s', error_state s', fan_on s')
  = (system_on s, system_on_prev s, error_state s, fan_on s)
  /\ last_fan_toggle_time s' = last_fan_toggle_time s
  /\ (top_temp s', bottom_temp s', meat_temp s')
     = (top_temp s, bottom_temp s, meat_temp s)
  /\ (desired_temp s', desired_meat_temp s')
     = (desired_temp s, desired_meat_temp s)
  /\ fan_control_pin s' = fan_control_pin s.
Proof. unfold switch_heater; branch; repeat split. Qed.

Lemma controlHeater_frame :
  let s' := controlHeater t s in
  (system_on s', system_on_prev s', error_state s', fan_on s')
  = (system_on s, system_on_prev s, error_state s, fan_on s)
  /\ last_fan_toggle_time s' = last_fan_toggle_time s
  /\ (top_temp s', bottom_temp s', meat_temp s')
     = (top_temp s, bottom_temp s, meat_temp s)
  /\ desired_meat_temp s' = desired_meat_temp s
  /\ fan_control_pin s' = fan_control_pin s.
Proof.
  unfold controlHeater, switch_heater, converge_target; branch;
    repeat split.
Qed.

Lemma controlFan_frame :
  let s' := controlFan t s in
  (system_on s', system_on_prev s', error_state s', heater_on s')
  = (system_on s, system_on_prev s, error_state s, heater_on s)
  /\ last_heater_toggle_time s' = last_heater_toggle_time s
  /\ (top_temp s', bottom_temp s', meat_temp s')
     = (top_temp s, bottom_temp s, meat_temp s)
  /\ (desired_temp s', desired_meat_temp s')
     = (desired_temp s, desired_meat_temp s)
  /\ heater_relay_pin s' = heater_relay_pin s.
Proof. unfold controlFan; branch; repeat split. Qed.

End Frames.

(** [loop1()] touches the two targets, the selector and its own
    bookkeeping, nothing of the control loop. *)
Lemma loop1_frame (j : Loop1Input) (s : State) :
  let s' := loop1 j s in
  (system_on s', system_on_prev s', error_state s', heater_on s', fan_on s')
  = (system_on s, system_on_prev s, error_state s, heater_on s, fan_on s)
  /\ (last_heater_toggle_time s', last_fan_toggle_time s')
     = (last_heater_toggle_time s, last_fan_toggle_time s)
  /\ (heater_relay_pin s', fan_control_pin s')
     = (heater_relay_pin s, fan_control_pin s).
Proof.
  unfold loop1, handleButton, handleEncoder, adjust; branch; repeat split.
Qed.

(** ** The emergency latch *)

(** Nothing in [loop()] assigns [false] to [error_state]. *)
Lemma loop_keeps_error (i : LoopInput) (s : State) :
  error_state s = true -> error_state (loop i s) = true.
Proof.
  intros H. unfold loop, control.
  set (s1 := check_emergency (read_temperatures i (read_switch i s))).
  assert (H1 : error_state s1 = true).
  { unfold s1, check_emergency, read_temperatures, read_switch.
    branch; simpl; auto. }
  unfold running. rewrite H1, andb_false_r. simpl. exact H1.
Qed.

Lemma step_keeps_error (p : Pass) (s : State) :
  error_state s = true -> error_state (step s p) = true.
Proof.
  destruct p as [i|j]; simpl.
  - apply loop_keeps_error.
  - intros H. destruct (loop1_frame j s) as [E _].
    injection E as _ _ E _ _. congruence.
Qed.

Lemma run_keeps_error (h : list Pass) (s : State) :
  error_state s = true -> error_state (run s h) = true.
Proof.
  revert s. induction h as [|p h IH]; intros s H; simpl.
  - exact H.
  - apply IH, step_keeps_error, H.
Qed.

(** A pass of [loop()] that does not end in the running state ends with
    both actuators off. *)
Lemma loop_not_running_off (i : LoopInput) (s : State) :
  running (loop i s) = false ->
  heater_on (loop i s) = false /\ fan_on (loop i s) = false
  /\ heater_relay_pin (loop i s) = LOW /\ fan_control_pin (loop i s) = LOW.
Proof.
  unfold loop, control.
  set (s1 := check_emergency (read_temperatures i (read_switch i s))).
  destruct (running s1) eqn:R; intros H.
  - exfalso. revert H. unfold running in *.
    destruct (controlFan_frame (millis (clk_fan i))
                (controlHeater (millis (clk_heater i)) s1)) as [E _].
    destruct (controlHeater_frame (millis (clk_heater i)) s1) as [E' _].
    cbv zeta in E, E'. injection E as -> _ -> _. injection E' as -> _ -> _.
    rewrite R. discriminate.
  - repeat split.
Qed.

Lemma running_system_state (s : State) :
  running s = true <-> system_state s = Running.
Proof.
  unfold running, system_state.
  destruct (error_state s), (system_on s); simpl; split; congruence.
Qed.

Lemma sense_fields (i : LoopInput) (s : State) :
  let s1 := sense i s in
  system_on s1 = pin_not (in_switch i) && negb (tripping i)
  /\ system_on_prev s1 = pin_not (in_switch i)
  /\ error_state s1 = error_state s || tripping i
  /\ (top_temp s1, bottom_temp s1, meat_temp s1)
     = (reading Top (in_top i), reading Bottom (in_bottom i),
        reading Probe (in_meat i))
  /\ (heater_on s1, fan_on s1, heater_relay_pin s1, fan_control_pin s1)
     = (heater_on s, fan_on s, heater_relay_pin s, fan_control_pin s)
  /\ (last_heater_toggle_time s1, last_fan_toggle_time s1)
     = (last_heater_toggle_time s, last_fan_toggle_time s)
  /\ (desired_temp s1, desired_meat_temp s1)
     = (desired_temp s, desired_meat_temp s).
Proof.
  unfold sense, check_emergency, emergency, read_temperatures, read_switch,
    tripping.
  cbn [top_temp bottom_temp meat_temp set_temps].
  destruct (_ || _ || _) eqn:T;
    destruct (pin_not (in_switch i)) eqn:P, (system_on_prev s) eqn:V;
    cbn; rewrite ?orb_true_r, ?orb_false_r; repeat split; reflexivity.
Qed.

Lemma loop_sense (i : LoopInput) (s : State) : loop i s = control i (sense i s).
Proof. reflexivity. Qed.

Lemma loop_system_on_prev (i : LoopInput) (s : State) :
  system_on_prev (loop i s) = pin_not (in_switch i).
Proof.
  rewrite loop_sense. destruct (sense_fields i s) as (_ & <- & _).
  unfold control, running. branch; [|reflexivity].
  destruct (controlFan_frame (millis (clk_fan i))
              (controlHeater (millis (clk_heater i)) (sense i s))) as [E _].
  destruct (controlHeater_frame (millis (clk_heater i)) (sense i s))
    as [E' _].
  cbv zeta in E, E'. injection E as _ -> _ _. injection E' as _ -> _ _.
  reflexivity.
Qed.

Lemma system_state_error (s : State) :
  system_state s = Error <-> error_state s = true.
Proof.
  unfold system_state. destruct (error_state s), (system_on s);
    split; congruence.
Qed.

Lemma error_not_running (s : State) : error_state s = true -> running s = false.
Proof. unfold running. intros ->. apply andb_false_r. Qed.

Lemma loop_tripping (i : LoopInput) (s : State) :
  tripping i = true -> shut_down (loop i s).
Proof.
  intros T.
  assert (E : error_state (loop i s) = true).
  { rewrite loop_sense. destruct (sense_fields i s) as (_ & _ & E & _).
    rewrite T, orb_true_r in E.
    unfold control. rewrite (error_not_running _ E). exact E. }
  split.
  - apply system_state_error, E.
  - apply loop_not_running_off, error_not_running, E.
Qed.

Lemma step_shut_down (p : Pass) (s : State) :
  shut_down s -> shut_down (step s p).
Proof.
  intros [E A]. apply system_state_error in E.
  destruct p as [i|j]; simpl.
  - pose proof (loop_keeps_error i s E) as E'. split.
    + apply system_state_error, E'.
    + apply loop_not_running_off, error_not_running, E'.
  - destruct (loop1_frame j s) as (F1 & _ & F2). cbv zeta in F1, F2.
    destruct A as (A1 & A2 & A3 & A4).
    injection F1 as _ _ F1 F3 F4. injection F2 as F5 F6.
    split; [apply system_state_error; congruence|].
    repeat split; congruence.
Qed.

Lemma trace_shut_down (h : list Pass) (s : State) :
  shut_down s -> Forall shut_down (trace s h).
Proof.
  revert s. induction h as [|p h IH]; intros s H; simpl; constructor.
  - apply step_shut_down, H.
  - apply IH, step_shut_down, H.
Qed.


(** ** C1, C2: the latch *)

(** C1 (the code departs from the claim).  The claim: from the Error state
    a switch transition Off then On, with no reading at the emergency
    threshold, clears the latched error and gives Running; nothing else
    clears it.  The code: after a pass that sees the switch off and a pass
    that sees it on, with no reading at the threshold, the system is still
    in Error with both actuators off; the edge was seen ([system_on_prev]
    went to false and back to true) and the error flag stayed.  Nothing
    clears it indeed: the system is in Error after every history. *)
Theorem error_survives_switch_edge (s : State) (i_off i_on : LoopInput) :
  error_state s = true ->
  in_switch i_off = HIGH -> in_switch i_on = LOW ->
  tripping i_off = false -> tripping i_on = false ->
  system_on_prev (loop i_off s) = false
  /\ system_on_prev (loop i_on (loop i_off s)) = true
  /\ shut_down (loop i_on (loop i_off s))
  /\ (forall h : list Pass, system_state (run s h) = Error).
Proof.
  intros E Hoff Hon _ _.
  pose proof (loop_keeps_error i_on _ (loop_keeps_error i_off s E)) as E2.
  rewrite !loop_system_on_prev, Hoff, Hon.
  split; [reflexivity|]. split; [reflexivity|]. split; [split|].
  - apply system_state_error, E2.
  - apply loop_not_running_off, error_not_running, E2.
  - intros h. apply system_state_error, run_keeps_error, E.
Qed.

Lemma error_survives_switch_edge_witness :
  system_state (loop pass_trip (initial_state LOW)) = Error
  /\ shut_down (loop pass_on (loop pass_off
                                (loop pass_trip (initial_state LOW)))).
Proof.
  split; [reflexivity|].
  apply (error_survives_switch_edge
           (loop pass_trip (initial_state LOW)) pass_off pass_on);
    reflexivity.
Defined.

(** C2.  On a pass of the control loop in which one of the three readings
    is at or above the emergency threshold (the first such pass or any
    other), the system is in Error and the heater and the fan are off when
    the pass ends, and they are so at the end of every later pass, whatever
    the readings then, as long as the switch shows no Off to On edge. *)
Theorem emergency_shuts_down (s : State) (i : LoopInput) (after : list Pass) :
  tripping i = true ->
  no_rising_edge (pin_not (in_switch i)) after = true ->
  shut_down (loop i s) /\ Forall shut_down (trace (loop i s) after).
Proof.
  intros T _. pose proof (loop_tripping i s T) as H.
  split; [exact H | apply trace_shut_down, H].
Qed.

Lemma emergency_shuts_down_witness :
  shut_down (loop pass_trip (initial_state LOW))
  /\ Forall shut_down
       (trace (loop pass_trip (initial_state LOW))
              history_cooled).
Proof.
  apply (emergency_shuts_down (initial_state LOW) pass_trip history_cooled);
    reflexivity.
Defined.

(** ** C4: the forced-off branch *)

Lemma force_off_idempotent (s : State) : force_off (force_off s) = force_off s.
Proof. reflexivity. Qed.

Lemma force_off_all_off (s : State) : all_off (force_off s).
Proof. repeat split. Qed.

(** A pass that does not end in the running state took the forced-off
    branch. *)
Lemma loop_forced (i : LoopInput) (s : State) :
  system_state (loop i s) <> Running -> loop i s = force_off (sense i s).
Proof.
  intros H. rewrite loop_sense in *. unfold control in *.
  destruct (running (sense i s)) eqn:R; [|reflexivity].
  exfalso. apply H, running_system_state.
  unfold running in *.
  destruct (controlFan_frame (millis (clk_fan i))
              (controlHeater (millis (clk_heater i)) (sense i s)))
    as [E _].
  destruct (controlHeater_frame (millis (clk_heater i)) (sense i s))
    as [E' _].
  cbv zeta in E, E'. injection E as -> _ -> _. injection E' as -> _ -> _.
  exact R.
Qed.

(** C4.  A pass of the control loop that ends in a state other than
    Running (the switch is off, or the error is latched or was raised in
    this pass) took the forced-off branch: both flags are false and both
    pins low when it ends, for every state before the pass and so whatever
    the last toggle times and the clock are.  Forcing is idempotent: doing
    it again to the state so reached, or to any state forced off, changes
    nothing, and a further pass that does not end in Running leaves the
    actuators as they are. *)
Theorem not_running_forces_off (i : LoopInput) (s : State) :
  system_state (loop i s) <> Running ->
  loop i s = force_off (sense i s)
  /\ all_off (loop i s)
  /\ force_off (loop i s) = loop i s
  /\ (forall x, force_off (force_off x) = force_off x)
  /\ (forall i', system_state (loop i' (loop i s)) <> Running ->
                 all_off (loop i' (loop i s))).
Proof.
  intros H. pose proof (loop_forced i s H) as R.
  split; [exact R|]. split; [rewrite R; apply force_off_all_off|].
  split; [rewrite R; apply force_off_idempotent|].
  split; [apply force_off_idempotent|].
  intros i' H'. rewrite (loop_forced _ _ H'). apply force_off_all_off.
Qed.

(** The switch goes off 100 ms after the heater came on. *)
Lemma not_running_forces_off_witness :
  heater_on state_just_switched = true
  /\ all_off (loop pass_early_release state_just_switched).
Proof.
  split; [reflexivity|].
  apply (not_running_forces_off pass_early_release
           state_just_switched).
  discriminate.
Defined.

(** ** C5: the heater rule *)

Lemma below_band_spec (s : State) :
  in_range (top_temp s) ->
  (below_band s = true <-> top_temp s < desired_temp s - temp_buffer).
Proof.
  unfold in_range, below_band, float_of_int, float_sub, temp_buffer.
  intros R. change (2 ^ 24) with 16777216 in R.
  rewrite (float_round_exact (top_temp s))
    by (change (2 ^ 24) with 16777216; lia).
  rewrite Z.ltb_lt.
  rewrite float_round_lt_exact by (change (2 ^ 24) with 16777216; lia).
  pose proof (float_round_lt_exact (top_temp s + 5) (desired_temp s)) as L.
  change (2 ^ 24) with 16777216 in L.
  split; intros H.
  - assert (top_temp s + 5 < desired_temp s) by (apply L; lia). lia.
  - assert (top_temp s + 5 < float_round (desired_temp s)) by (apply L; lia).
    lia.
Qed.

Lemma at_target_spec (s : State) :
  at_target s = true
  <-> desired_temp s <= top_temp s \/ desired_temp s <= bottom_temp s.
Proof. unfold at_target. rewrite orb_true_iff, !Z.leb_le. tauto. Qed.

Lemma heater_dwell_over_spec (t : Z) (s : State) :
  heater_dwell_over t s = true
  <-> HEATER_CYCLE_TIME <= ulong_sub t (last_heater_toggle_time s).
Proof. unfold heater_dwell_over. apply Z.leb_le. Qed.

(** The three outcomes of lines 277-286. *)
Lemma switch_heater_cases (t : Z) (s : State) :
  (heater_on s = false /\ below_band s = true
   /\ heater_dwell_over t s = true
   /\ switch_heater t s = set_heater HIGH true (Some t) s)
  \/ (heater_on s = true /\ at_target s = true
      /\ heater_dwell_over t s = true
      /\ switch_heater t s = set_heater LOW false (Some t) s)
  \/ (switch_heater t s = s
      /\ (heater_on s = false ->
          below_band s && heater_dwell_over t s = false)
      /\ (heater_on s = true ->
          at_target s && heater_dwell_over t s = false)).
Proof.
  unfold switch_heater.
  destruct (heater_on s), (below_band s), (at_target s),
    (heater_dwell_over t s); simpl; auto 10.
Qed.

(** One evaluation of [controlHeater()]. *)
Lemma controlHeater_rule (t : Z) (s : State) :
  in_range (top_temp s) ->
  let target := desired_temp (converge_target s) in
  let dwell := HEATER_CYCLE_TIME <= ulong_sub t (last_heater_toggle_time s) in
  let s' := controlHeater t s in
  (heater_on s = false /\ heater_on s' = true
   <-> heater_on s = false /\ top_temp s < target - 5 /\ dwell)
  /\ (heater_on s = true /\ heater_on s' = false
      <-> heater_on s = true
          /\ (target <= top_temp s \/ target <= bottom_temp s) /\ dwell)
  /\ (heater_on s' = heater_on s -> s' = converge_target s)
  /\ (heater_on s' <> heater_on s ->
      heater_relay_pin s' = (if heater_on s' then HIGH else LOW)
      /\ last_heater_toggle_time s' = t).
Proof.
  intros R target dwell s'. subst target dwell s'. unfold controlHeater.
  set (s1 := converge_target s).
  destruct (converge_target_frame s) as (F1 & F2 & F3 & _).
  cbv zeta in F1, F2, F3. fold s1 in F1, F2, F3.
  injection F1 as _ _ _ Fh _. injection F2 as Fl _.
  injection F3 as Ft Fb _ _.
  rewrite <- Fh, <- Fl, <- Ft, <- Fb. rewrite <- Ft in R.
  pose proof (below_band_spec s1 R) as B. change temp_buffer with 5 in B.
  pose proof (at_target_spec s1) as A.
  pose proof (heater_dwell_over_spec t s1) as D.
  destruct (switch_heater_cases t s1)
    as [(H & Hb & Hd & ->) | [(H & Ha & Hd & ->) | (-> & Hn & Hf)]];
    cbn [heater_on heater_relay_pin last_heater_toggle_time set_heater].
  - rewrite H. apply B in Hb. apply D in Hd.
    intuition (auto; congruence).
  - rewrite H. apply A in Ha. apply D in Hd.
    intuition (auto; congruence).
  - assert (Nb : heater_on s1 = false ->
                 ~ (top_temp s1 < desired_temp s1 - 5
                    /\ HEATER_CYCLE_TIME
                       <= ulong_sub t (last_heater_toggle_time s1))).
    { intros H [Hb Hd]. specialize (Hn H).
      apply B in Hb. apply D in Hd. rewrite Hb, Hd in Hn. discriminate. }
    assert (Na : heater_on s1 = true ->
                 ~ ((desired_temp s1 <= top_temp s1
                     \/ desired_temp s1 <= bottom_temp s1)
                    /\ HEATER_CYCLE_TIME
                       <= ulong_sub t (last_heater_toggle_time s1))).
    { intros H [Ha Hd]. specialize (Hf H).
      apply A in Ha. apply D in Hd. rewrite Ha, Hd in Hf. discriminate. }
    clear B A D Hn Hf.
    destruct (heater_on s1); intuition (auto; congruence).
Qed.

(** C5.  An evaluation of the heater control (made in the Running state,
    at the instant [t] of its [millis()]), with [target] the enclosure
    target it compares with and a Top reading in the range the loop stores:
    the heater goes from off to on exactly when it is off, Top is strictly
    below target minus the buffer of 5 degrees, and at least
    [HEATER_CYCLE_TIME] = 10000 ms are counted since the last recorded
    heater toggle; it goes from on to off exactly when it is on, Top or
    Bottom is at or above target, and the same dwell is counted; otherwise
    nothing of the heater changes.  A switch drives the pin and records
    [t].  The dwell is counted on the 32-bit values of [millis()]; it is
    the time gone by whenever less than 2^32 ms passed since the last
    recorded toggle. *)
Theorem heater_rule (t : Z) (s : State) :
  in_range (top_temp s) ->
  let target := desired_temp (converge_target s) in
  let dwell := HEATER_CYCLE_TIME <= ulong_sub t (last_heater_toggle_time s) in
  let s' := controlHeater t s in
  (heater_on s = false /\ heater_on s' = true
   <-> heater_on s = false /\ top_temp s < target - 5 /\ dwell)
  /\ (heater_on s = true /\ heater_on s' = false
      <-> heater_on s = true
          /\ (target <= top_temp s \/ target <= bottom_temp s) /\ dwell)
  /\ (heater_on s' = heater_on s -> s' = converge_target s)
  /\ (heater_on s' <> heater_on s ->
      heater_relay_pin s' = (if heater_on s' then HIGH else LOW)
      /\ last_heater_toggle_time s' = t)
  /\ (forall clk L : Z,
         t = millis clk -> last_heater_toggle_time s = millis L ->
         0 <= clk - L < ULONG_MOD ->
         (dwell <-> HEATER_CYCLE_TIME <= clk - L)).
Proof.
  intros R target dwell s'.
  destruct (controlHeater_rule t s R) as (A & B & C & D).
  split; [exact A|]. split; [exact B|]. split; [exact C|].
  split; [exact D|].
  intros clk L -> E W. subst dwell. rewrite E, ulong_sub_real by exact W.
  tauto.
Qed.

(** Scenario 5 of the specification, target 230 and buffer 5: at Top = 224
    the heater comes on; 10 s later at Top = 231 it goes off. *)
Lemma heater_rule_witness :
  in_range (top_temp state_heater_scenario)
  /\ (heater_on state_heater_scenario = false
      /\ heater_on (controlHeater 10000 state_heater_scenario) = true
      <-> heater_on state_heater_scenario = false
          /\ top_temp state_heater_scenario
             < desired_temp (converge_target state_heater_scenario) - 5
          /\ HEATER_CYCLE_TIME
             <= ulong_sub 10000
                  (last_heater_toggle_time state_heater_scenario)).
Proof.
  split.
  - split; vm_compute; discriminate.
  - apply (heater_rule 10000 state_heater_scenario).
    split; vm_compute; discriminate.
Defined.

Example heater_scenario :
  let s1 := controlHeater 10000 state_heater_scenario in
  let s2 := controlHeater 20000 (set_temps 231 220 100 s1) in
  (heater_on s1, heater_relay_pin s1, heater_on s2, heater_relay_pin s2)
  = (true, HIGH, false, LOW).
Proof. reflexivity. Qed.

(** ** C6: the fan rule *)

Lemma temp_difference_spec (s : State) :
  in_range (top_temp s) -> in_range (bottom_temp s) ->
  temp_difference s = float_round (spread s).
Proof.
  unfold in_range, temp_difference, spread, float_of_int, int_sub.
  change (2 ^ 24) with 16777216. intros Rt Rb.
  rewrite wrap_int_exact by (unfold INT_MIN, INT_MAX; lia).
  rewrite int_abs_exact by (unfold INT_MIN, INT_MAX; lia).
  reflexivity.
Qed.

Lemma fan_on_threshold (s : State) :
  in_range (top_temp s) -> in_range (bottom_temp s) ->
  ((float_of_int FAN_TEMP_DELTA_ON <? temp_difference s) = true
   <-> FAN_TEMP_DELTA_ON < spread s).
Proof.
  intros Rt Rb. rewrite temp_difference_spec by assumption.
  unfold float_of_int, FAN_TEMP_DELTA_ON.
  rewrite float_round_exact by (vm_compute; discriminate).
  rewrite Z.ltb_lt.
  apply float_round_lt_exact. split; vm_compute; congruence.
Qed.

Lemma fan_off_threshold (s : State) :
  in_range (top_temp s) -> in_range (bottom_temp s) ->
  ((temp_difference s <=? float_of_int FAN_TEMP_DELTA_OFF) = true
   <-> spread s <= FAN_TEMP_DELTA_OFF).
Proof.
  intros Rt Rb. rewrite temp_difference_spec by assumption.
  unfold float_of_int, FAN_TEMP_DELTA_OFF.
  rewrite (float_round_exact 15) by (vm_compute; discriminate).
  rewrite Z.leb_le.
  apply float_round_le_exact. split; vm_compute; congruence.
Qed.

Lemma fan_dwell_over_spec (t : Z) (s : State) :
  fan_dwell_over t s = true
  <-> FAN_CYCLE_TIME <= ulong_sub t (last_fan_toggle_time s).
Proof. unfold fan_dwell_over. apply Z.leb_le. Qed.

(** The three outcomes of [controlFan()]. *)
Lemma controlFan_cases (t : Z) (s : State) :
  (fan_on s = false
   /\ (float_of_int FAN_TEMP_DELTA_ON <? temp_difference s) = true
   /\ fan_dwell_over t s = true
   /\ controlFan t s = set_fan HIGH true (Some t) s)
  \/ (fan_on s = true
      /\ (temp_difference s <=? float_of_int FAN_TEMP_DELTA_OFF) = true
      /\ fan_dwell_over t s = true
      /\ controlFan t s = set_fan LOW false (Some t) s)
  \/ (controlFan t s = s
      /\ (fan_on s = false ->
          (float_of_int FAN_TEMP_DELTA_ON <? temp_difference s)
          && fan_dwell_over t s = false)
      /\ (fan_on s = true ->
          (temp_difference s <=? float_of_int FAN_TEMP_DELTA_OFF)
          && fan_dwell_over t s = false)).
Proof.
  unfold controlFan.
  destruct (fan_on s), (_ <? _), (_ <=? _), (fan_dwell_over t s);
    simpl; auto 10.
Qed.

(** One evaluation of [controlFan()]. *)
Lemma controlFan_rule (t : Z) (s : State) :
  in_range (top_temp s) -> in_range (bottom_temp s) ->
  let dwell := FAN_CYCLE_TIME <= ulong_sub t (last_fan_toggle_time s) in
  let s' := controlFan t s in
  (fan_on s = false /\ fan_on s' = true
   <-> fan_on s = false /\ 30 < spread s /\ dwell)
  /\ (fan_on s = true /\ fan_on s' = false
      <-> fan_on s = true /\ spread s <= 15 /\ dwell)
  /\ (fan_on s' = fan_on s -> s' = s)
  /\ (fan_on s' <> fan_on s ->
      fan_control_pin s' = (if fan_on s' then HIGH else LOW)
      /\ last_fan_toggle_time s' = t).
Proof.
  intros Rt Rb dwell s'. subst dwell s'.
  pose proof (fan_on_threshold s Rt Rb) as A.
  pose proof (fan_off_threshold s Rt Rb) as B.
  pose proof (fan_dwell_over_spec t s) as D.
  change FAN_TEMP_DELTA_ON with 30 in A at 2.
  change FAN_TEMP_DELTA_OFF with 15 in B at 2.
  destruct (controlFan_cases t s)
    as [(H & Ha & Hd & ->) | [(H & Hb & Hd & ->) | (-> & Hn & Hf)]];
    cbn [fan_on fan_control_pin last_fan_toggle_time set_fan].
  - rewrite H. apply A in Ha. apply D in Hd. intuition (auto; congruence).
  - rewrite H. apply B in Hb. apply D in Hd. intuition (auto; congruence).
  - assert (Na : fan_on s = false ->
                 ~ (30 < spread s
                    /\ FAN_CYCLE_TIME
                       <= ulong_sub t (last_fan_toggle_time s))).
    { intros H [Ha Hd]. specialize (Hn H).
      apply A in Ha. apply D in Hd. rewrite Ha, Hd in Hn. discriminate. }
    assert (Nb : fan_on s = true ->
                 ~ (spread s <= 15
                    /\ FAN_CYCLE_TIME
                       <= ulong_sub t (last_fan_toggle_time s))).
    { intros H [Hb Hd]. specialize (Hf H).
      apply B in Hb. apply D in Hd. rewrite Hb, Hd in Hf. discriminate. }
    clear A B D Hn Hf.
    destruct (fan_on s); intuition (auto; congruence).
Qed.

(** A running pass is the two controllers one after the other. *)
Lemma loop_running (i : LoopInput) (s : State) :
  error_state s = false -> in_switch i = LOW -> tripping i = false ->
  let s1 := sense i s in
  let s2 := controlHeater (millis (clk_heater i)) s1 in
  loop i s = controlFan (millis (clk_fan i)) s2
  /\ error_state (loop i s) = false
  /\ (fan_on s2, last_fan_toggle_time s2) = (fan_on s, last_fan_toggle_time s)
  /\ (heater_on s1, last_heater_toggle_time s1)
     = (heater_on s, last_heater_toggle_time s)
  /\ (top_temp s2, bottom_temp s2)
     = (reading Top (in_top i), reading Bottom (in_bottom i))
  /\ (top_temp s1, bottom_temp s1, meat_temp s1)
     = (reading Top (in_top i), reading Bottom (in_bottom i),
        reading Probe (in_meat i))
  /\ (desired_temp s1, desired_meat_temp s1)
     = (desired_temp s, desired_meat_temp s).
Proof.
  intros E Sw T s1 s2.
  destruct (sense_fields i s) as (On & _ & Er & Tm & Ac & Lt & Ds).
  cbv zeta in *. fold s1 in On, Er, Tm, Ac, Lt, Ds.
  rewrite Sw, T in On. rewrite E, T in Er. simpl in On, Er.
  destruct (controlHeater_frame (millis (clk_heater i)) s1)
    as (F1 & F2 & F3 & _).
  cbv zeta in *. fold s2 in F1, F2, F3.
  destruct (controlFan_frame (millis (clk_fan i)) s2) as (G1 & _).
  cbv zeta in G1.
  injection F1 as _ _ Fe Ff. injection F3 as Ft Fb _.
  injection G1 as _ _ Ge _.
  injection Ac as Ah Af _ _. injection Lt as Lh Lf.
  injection Tm as Tt Tb Tp.
  rewrite loop_sense. unfold control, running. fold s1.
  rewrite On, Er. simpl. fold s2.
  repeat split; congruence.
Qed.

Lemma step_in_band (p : Pass) (s : State) :
  fan_on s = true -> error_state s = false -> in_band p ->
  fan_on (step s p) = true /\ error_state (step s p) = false.
Proof.
  intros Fon E B. destruct p as [i|j]; simpl in *.
  - destruct B as (Sw & T & Rt & Rb & Lo & _).
    destruct (loop_running i s E Sw T) as (-> & _ & F & _ & Tm & _).
    cbv zeta in *.
    set (s2 := controlHeater (millis (clk_heater i)) (sense i s)) in *.
    injection F as F _. injection Tm as Tt Tb.
    rewrite <- Tt in Rt. rewrite <- Tb in Rb.
    destruct (controlFan_rule (millis (clk_fan i)) s2 Rt Rb) as (_ & Off & _).
    cbv zeta in Off. split.
    + destruct (fan_on (controlFan (millis (clk_fan i)) s2)) eqn:X;
        [reflexivity|].
      exfalso. assert (Y : fan_on s2 = true /\ false = false)
        by (split; congruence).
      apply Off in Y. destruct Y as (_ & Y & _).
      unfold spread in Y. unfold spread_of, FAN_TEMP_DELTA_OFF in Lo.
      rewrite Tt, Tb in Y. lia.
    + destruct (controlFan_frame (millis (clk_fan i)) s2) as (G & _).
      destruct (controlHeater_frame (millis (clk_heater i)) (sense i s))
        as (G' & _).
      destruct (sense_fields i s) as (_ & _ & Er & _).
      cbv zeta in *. fold s2 in G'.
      injection G as _ _ -> _. injection G' as _ _ -> _.
      rewrite Er, E, T. reflexivity.
  - destruct (loop1_frame j s) as (F & _). cbv zeta in F.
    injection F as _ _ Fe _ Ff. split; congruence.
Qed.

Lemma trace_in_band (h : list Pass) (s : State) :
  fan_on s = true -> error_state s = false -> Forall in_band h ->
  Forall (fun s' => fan_on s' = true) (trace s h).
Proof.
  revert s. induction h as [|p h IH]; intros s Fon E B; simpl.
  - constructor.
  - inversion B as [|? ? Bp Bh]; subst.
    destruct (step_in_band p s Fon E Bp) as [Fon' E'].
    constructor; [exact Fon' | apply IH; assumption].
Qed.

(** A switch of the fan is the assignment of lines 297-299 or 302-304:
    the pin is driven, the flag set and the instant recorded, and nothing
    else changes. *)
Lemma controlFan_switch (t : Z) (s : State) :
  fan_on (controlFan t s) <> fan_on s ->
  controlFan t s
  = set_fan (if fan_on (controlFan t s) then HIGH else LOW)
            (fan_on (controlFan t s)) (Some t) s.
Proof.
  destruct (controlFan_cases t s)
    as [(_ & _ & _ & ->) | [(_ & _ & _ & ->) | (-> & _)]];
    cbn [fan_on set_fan]; intros H; [reflexivity | reflexivity |].
  exfalso. apply H. reflexivity.
Qed.

(** A pass in the band leaves the pin of the fan and its last toggle time
    as they are. *)
Lemma step_in_band_frame (p : Pass) (s : State) :
  fan_on s = true -> error_state s = false -> in_band p ->
  fan_control_pin (step s p) = fan_control_pin s
  /\ last_fan_toggle_time (step s p) = last_fan_toggle_time s.
Proof.
  intros Fon E B.
  destruct (step_in_band p s Fon E B) as [Fon' _].
  destruct p as [i|j]; simpl in *.
  - destruct B as (Sw & T & Rt & Rb & _).
    destruct (loop_running i s E Sw T) as (L & _ & F & _ & Tm & _).
    cbv zeta in *.
    destruct (sense_fields i s) as (_ & _ & _ & _ & Ac & _).
    destruct (controlHeater_frame (millis (clk_heater i)) (sense i s))
      as (_ & _ & _ & _ & Kp).
    cbv zeta in Ac, Kp.
    set (s2 := controlHeater (millis (clk_heater i)) (sense i s)) in *.
    injection F as Ff Fl. injection Tm as Tt Tb. injection Ac as _ _ _ Ap.
    rewrite <- Tt in Rt. rewrite <- Tb in Rb.
    destruct (controlFan_rule (millis (clk_fan i)) s2 Rt Rb)
      as (_ & _ & Same & _).
    cbv zeta in Same. rewrite L in Fon' |- *.
    rewrite Same by congruence. split; congruence.
  - destruct (loop1_frame j s) as (_ & F1 & F2). cbv zeta in F1, F2.
    injection F1 as _ Fl. injection F2 as _ Fp. split; assumption.
Qed.

Lemma trace_in_band_frame (h : list Pass) (s : State) :
  fan_on s = true -> error_state s = false -> Forall in_band h ->
  Forall (fun s' => fan_on s' = true
                    /\ fan_control_pin s' = fan_control_pin s
                    /\ last_fan_toggle_time s' = last_fan_toggle_time s)
         (trace s h).
Proof.
  revert s. induction h as [|p h IH]; intros s Fon E B; simpl.
  - constructor.
  - inversion B as [|? ? Bp Bh]; subst.
    destruct (step_in_band p s Fon E Bp) as [Fon' E'].
    destruct (step_in_band_frame p s Fon E Bp) as [Pin Last].
    constructor; [repeat split; assumption|].
    specialize (IH (step s p) Fon' E' Bh).
    eapply Forall_impl; [|exact IH]. simpl.
    intros s' (A & B' & C). repeat split; congruence.
Qed.

(** C6.  An evaluation of the fan control (made in the Running state, at
    the instant [t] of its [millis()]) with spread = |Top - Bottom| of the
    stored readings: the fan goes from off to on exactly when it is off,
    the spread exceeds 30 degrees and [FAN_CYCLE_TIME] = 60000 ms are
    counted since its last recorded toggle; it goes from on to off exactly
    when it is on, the spread is at most 15 degrees and the same dwell is
    counted; otherwise nothing changes.  A switch drives the pin of the fan
    (high when the fan goes on, low when it goes off), sets the flag and
    records [t] as the last toggle time, from which the next dwell is
    counted, and changes nothing else.  (The dwell is counted on the
    32-bit values of [millis()]; it is the time gone by whenever less than
    2^32 ms passed since the last recorded toggle.)  Consequently, once
    the fan is on, through any history whose passes of the control loop
    keep the system running with a spread in (15, 30], the fan is on at
    the end of every pass, with its pin and its last toggle time as they
    were. *)
Theorem fan_rule :
  (forall (t : Z) (s : State),
      in_range (top_temp s) -> in_range (bottom_temp s) ->
      let dwell := FAN_CYCLE_TIME <= ulong_sub t (last_fan_toggle_time s) in
      let s' := controlFan t s in
      (fan_on s = false /\ fan_on s' = true
       <-> fan_on s = false /\ 30 < spread s /\ dwell)
      /\ (fan_on s = true /\ fan_on s' = false
          <-> fan_on s = true /\ spread s <= 15 /\ dwell)
      /\ (fan_on s' = fan_on s -> s' = s)
      /\ (fan_on s' <> fan_on s ->
          fan_control_pin s' = (if fan_on s' then HIGH else LOW)
          /\ last_fan_toggle_time s' = t
          /\ s' = set_fan (if fan_on s' then HIGH else LOW) (fan_on s')
                          (Some t) s)
      /\ (forall clk L : Z,
             t = millis clk -> last_fan_toggle_time s = millis L ->
             0 <= clk - L < ULONG_MOD ->
             (dwell <-> FAN_CYCLE_TIME <= clk - L)))
  /\ (forall (s : State) (h : list Pass),
         fan_on s = true -> error_state s = false -> Forall in_band h ->
         Forall (fun s' => fan_on s' = true
                           /\ fan_control_pin s' = fan_control_pin s
                           /\ last_fan_toggle_time s'
                              = last_fan_toggle_time s)
                (trace s h)).
Proof.
  split.
  - intros t s Rt Rb dwell s'.
    destruct (controlFan_rule t s Rt Rb) as (A & B & C & D).
    split; [exact A|]. split; [exact B|]. split; [exact C|]. split.
    + intros N. destruct (D N) as (Pin & Last).
      split; [exact Pin|]. split; [exact Last|].
      apply controlFan_switch, N.
    + intros clk L -> E W. subst dwell.
      rewrite E, ulong_sub_real by exact W. tauto.
  - intros s h. apply trace_in_band_frame.
Qed.

(** Scenario 6 of the specification (Top = 200, Bottom = 150: the fan
    comes on, its pin goes high and the instant is recorded), and a fan
    that stays on at spreads 30 and 19. *)
Lemma fan_rule_witness :
  (in_range (top_temp state_fan_scenario)
   /\ in_range (bottom_temp state_fan_scenario)
   /\ (fan_on state_fan_scenario = false
       /\ fan_on (controlFan 60000 state_fan_scenario) = true
       <-> fan_on state_fan_scenario = false
           /\ 30 < spread state_fan_scenario
           /\ FAN_CYCLE_TIME
              <= ulong_sub 60000 (last_fan_toggle_time state_fan_scenario))
   /\ fan_control_pin (controlFan 60000 state_fan_scenario) = HIGH
   /\ last_fan_toggle_time (controlFan 60000 state_fan_scenario) = 60000)
  /\ Forall (fun s' => fan_on s' = true
                       /\ fan_control_pin s' = fan_control_pin state_fan_on
                       /\ last_fan_toggle_time s'
                          = last_fan_toggle_time state_fan_on)
       (trace state_fan_on history_in_band).
Proof.
  assert (Rt : in_range (top_temp state_fan_scenario)) by (split; evaluate).
  assert (Rb : in_range (bottom_temp state_fan_scenario))
    by (split; evaluate).
  split.
  - destruct (proj1 fan_rule 60000 state_fan_scenario Rt Rb)
      as (On & _ & _ & Sw & _).
    cbv zeta in On, Sw.
    destruct Sw as (Pin & Last & _); [discriminate|].
    split; [exact Rt|]. split; [exact Rb|]. split; [exact On|].
    split; [exact Pin | exact Last].
  - apply (proj2 fan_rule state_fan_on); [reflexivity | reflexivity |].
    repeat constructor; evaluate.
Defined.

Example fan_scenario :
  let s1 := controlFan 60000 state_fan_scenario in
  let s2 := controlFan 120000 (set_temps 190 180 100 s1) in
  let s3 := controlFan 119999 (set_temps 190 180 100 s1) in
  (fan_on s1, fan_control_pin s1, fan_on s2, fan_control_pin s2, fan_on s3)
  = (true, HIGH, false, LOW, true).
Proof. reflexivity. Qed.

(** ** C7: the enclosure target follows the probe target *)

Lemma converge_target_desired (s : State) :
  desired_temp (converge_target s)
  = if desired_meat_temp s <=? meat_temp s
    then desired_meat_temp s else desired_temp s.
Proof. unfold converge_target. branch; reflexivity. Qed.

Lemma controlHeater_desired (t : Z) (s : State) :
  desired_temp (controlHeater t s) = desired_temp (converge_target s).
Proof.
  unfold controlHeater.
  destruct (switch_heater_frame t (converge_target s)) as (_ & _ & _ & E & _).
  cbv zeta in E. injection E as E _. exact E.
Qed.

Lemma control_targets (i : LoopInput) (s : State) :
  desired_meat_temp (control i s) = desired_meat_temp s
  /\ (desired_temp (control i s) = desired_temp s
      \/ desired_temp (control i s) = desired_meat_temp s).
Proof.
  unfold control. destruct (running s).
  - destruct (controlFan_frame (millis (clk_fan i))
                (controlHeater (millis (clk_heater i)) s))
      as (_ & _ & _ & E & _).
    destruct (controlHeater_frame (millis (clk_heater i)) s)
      as (_ & _ & _ & E' & _).
    cbv zeta in E, E'. injection E as -> ->.
    rewrite controlHeater_desired, converge_target_desired.
    split; [exact E'|]. destruct (_ <=? _); auto.
  - split; [reflexivity | left; reflexivity].
Qed.

Lemma loop_targets (i : LoopInput) (s : State) :
  desired_meat_temp (loop i s) = desired_meat_temp s
  /\ (desired_temp (loop i s) = desired_temp s
      \/ desired_temp (loop i s) = desired_meat_temp s).
Proof.
  rewrite loop_sense.
  destruct (sense_fields i s) as (_ & _ & _ & _ & _ & _ & E).
  cbv zeta in E. injection E as E1 E2.
  destruct (control_targets i (sense i s)) as (C1 & C2).
  rewrite C1, E2. split; [reflexivity|].
  destruct C2 as [C2|C2]; rewrite C2; [left|right]; assumption.
Qed.

Lemma run_loop_converged (h : list LoopInput) (s : State) :
  desired_temp s = desired_meat_temp s ->
  desired_temp (run_loop s h) = desired_meat_temp s
  /\ desired_meat_temp (run_loop s h) = desired_meat_temp s.
Proof.
  revert s. induction h as [|i h IH]; intros s E; simpl.
  - auto.
  - destruct (loop_targets i s) as (M & D).
    assert (E' : desired_temp (loop i s) = desired_meat_temp (loop i s))
      by (destruct D; congruence).
    destruct (IH _ E') as (I1 & I2). unfold run_loop in *.
    split; congruence.
Qed.

(** C7 as the claim has it does not hold: the controller also raises the
    enclosure target.  With the enclosure target at 150, the probe target
    at 190 and the probe at 190, one evaluation takes the enclosure target
    from 150 up to 190.  And from power-up (targets 230 and 190) with the
    probe at 195: the loop lowers the enclosure target to 190; the probe
    target is then turned up by one tick to 192, and the next pass of the
    loop raises the enclosure target to 192. *)
Lemma enclosure_target_raised :
  desired_temp state_low_target = 150
  /\ desired_meat_temp state_low_target <= meat_temp state_low_target
  /\ desired_temp (controlHeater 10000 state_low_target) = 190
  /\ map (fun s => (desired_temp s, desired_meat_temp s))
         (trace (initial_state LOW) history_retarget)
     = [(190, 190); (190, 190); (190, 192); (192, 192)].
Proof.
  split; [reflexivity|]. split; [evaluate|]. split; reflexivity.
Qed.

(** C7, amended.  In an evaluation of the heater control in which the Probe
    reading is at or above the probe target, the enclosure target is made
    equal to the probe target before the on and off conditions are looked
    at: the evaluation is the switching rule run on the state with the new
    target.  This lowers the enclosure target exactly when it was above the
    probe target and raises it exactly when it was below.  The target so
    set is the one in force for the rest of that pass and in every later
    pass of the control loop, whatever the readings do (no input from the
    encoder in between).  The controller moves the enclosure target
    nowhere else: an evaluation leaves it as it is or sets it to the probe
    target, and with the Probe below its target it is left as it is. *)
Theorem probe_target_convergence :
  (forall (t tf : Z) (s : State) (h : list LoopInput),
      desired_meat_temp s <= meat_temp s ->
      controlHeater t s
      = switch_heater t (set_desired_temp (desired_meat_temp s) s)
      /\ desired_temp (controlHeater t s) = desired_meat_temp s
      /\ (desired_temp (controlHeater t s) < desired_temp s
          <-> desired_meat_temp s < desired_temp s)
      /\ (desired_temp s < desired_temp (controlHeater t s)
          <-> desired_temp s < desired_meat_temp s)
      /\ desired_temp (run_loop (controlFan tf (controlHeater t s)) h)
         = desired_meat_temp s)
  /\ (forall (t : Z) (s : State),
         desired_temp (controlHeater t s) = desired_temp s
         \/ desired_temp (controlHeater t s) = desired_meat_temp s)
  /\ (forall (t : Z) (s : State),
         meat_temp s < desired_meat_temp s ->
         desired_temp (controlHeater t s) = desired_temp s).
Proof.
  split; [|split].
  - intros t tf s h H.
    assert (L : (desired_meat_temp s <=? meat_temp s) = true)
      by (apply Z.leb_le, H).
    assert (D : desired_temp (controlHeater t s) = desired_meat_temp s).
    { rewrite controlHeater_desired, converge_target_desired, L.
      reflexivity. }
    split; [|split; [|split; [|split]]].
    + unfold controlHeater, converge_target. rewrite L. reflexivity.
    + exact D.
    + rewrite D. tauto.
    + rewrite D. tauto.
    + set (s1 := controlFan tf (controlHeater t s)).
      destruct (controlFan_frame tf (controlHeater t s))
        as (_ & _ & _ & E & _).
      destruct (controlHeater_frame t s) as (_ & _ & _ & E' & _).
      cbv zeta in E, E'. fold s1 in E. injection E as E1 E2.
      rewrite D in E1.
      destruct (run_loop_converged h s1) as (R & _); congruence.
  - intros t s. rewrite controlHeater_desired, converge_target_desired.
    destruct (_ <=? _); auto.
  - intros t s H. rewrite controlHeater_desired, converge_target_desired.
    destruct (Z.leb_spec (desired_meat_temp s) (meat_temp s));
      [lia | reflexivity].
Qed.

(** Scenario 4 of the specification: the target goes from 230 to 190 and
    stays there when the probe later reads 150. *)
Lemma probe_target_convergence_witness :
  desired_temp state_probe_done = 230
  /\ desired_temp (controlHeater 10000 state_probe_done) = 190
  /\ desired_temp
       (run_loop (controlFan 10000 (controlHeater 10000 state_probe_done))
                 [pass_at 10100 LOW 197 192 150])
     = 190.
Proof.
  split; [reflexivity|].
  destruct (proj1 probe_target_convergence 10000 10000 state_probe_done
              [pass_at 10100 LOW 197 192 150]) as (_ & A & _ & _ & B).
  - evaluate.
  - split; [exact A | exact B].
Defined.

(** ** C8: encoder and button *)

Lemma int_add_adjustable (v d : Z) :
  adjustable v -> d = 2 \/ d = -2 -> int_add v d = v + d.
Proof.
  unfold adjustable, int_add. intros A D. apply wrap_int_exact.
  unfold INT_MIN, INT_MAX in *. lia.
Qed.

Lemma handleEncoder_tick (clk dt : PinStatus) (s : State) :
  tick clk s = true ->
  handleEncoder clk dt s
  = set_encoder_state_last (pin_value clk) (adjust (tick_step clk dt) s).
Proof.
  unfold handleEncoder, tick_step. intros ->.
  destruct (clockwise clk dt); reflexivity.
Qed.

Lemma handleEncoder_no_tick (clk dt : PinStatus) (s : State) :
  tick clk s = false ->
  handleEncoder clk dt s = set_encoder_state_last (pin_value clk) s.
Proof. unfold handleEncoder. intros ->. reflexivity. Qed.

Lemma tick_step_cases (clk dt : PinStatus) :
  tick_step clk dt = 2 \/ tick_step clk dt = -2.
Proof. unfold tick_step. destruct (clockwise clk dt); auto. Qed.

Lemma loop1_setting (j : Loop1Input) (s : State) :
  current_setting s = 0 \/ current_setting s = 1 ->
  current_setting (loop1 j s) = 0 \/ current_setting (loop1 j s) = 1.
Proof.
  intros H. unfold loop1, handleButton.
  set (s1 := handleEncoder (in_clk j) (in_dt j) s).
  assert (E : current_setting s1 = current_setting s).
  { unfold s1, handleEncoder, adjust. branch; reflexivity. }
  destruct (press_accepted _ _ s1);
    cbn [current_setting set_button]; rewrite E;
    destruct H as [-> | ->]; auto.
Qed.

Lemma loop_setting (i : LoopInput) (s : State) :
  current_setting (loop i s) = current_setting s.
Proof.
  unfold loop, control, force_off, controlFan, controlHeater, switch_heater,
    converge_target, check_emergency, read_temperatures, read_switch.
  branch; reflexivity.
Qed.

Lemma run_setting (h : list Pass) (s : State) :
  current_setting s = 0 \/ current_setting s = 1 ->
  current_setting (run s h) = 0 \/ current_setting (run s h) = 1.
Proof.
  revert s. induction h as [|p h IH]; intros s H; simpl; [exact H|].
  apply IH. destruct p as [i|j]; simpl.
  - rewrite loop_setting. exact H.
  - apply loop1_setting, H.
Qed.

(** C8.  A detected tick of the encoder changes the selected target (the
    enclosure target when the selector is on Enclosure, the probe target
    when it is on Probe) by +2 clockwise and by -2 counter-clockwise,
    leaves the other target and the selector as they are, and bounds the
    result in no way: this holds at every value of the target that an
    [int] can move by 2 from.  A press that the button handler accepts
    (pin low, more than 500 ms counted since the last accepted press) moves
    the selector to the other of its two values and leaves both targets.
    The selector never holds anything but 0 (Enclosure) or 1 (Probe). *)
Theorem encoder_and_button :
  (forall (clk dt : PinStatus) (s : State),
      tick clk s = true -> adjustable (target (selector s) s) ->
      let s' := handleEncoder clk dt s in
      selector s' = selector s
      /\ current_setting s' = current_setting s
      /\ target (selector s) s'
         = target (selector s) s + (if clockwise clk dt then 2 else -2)
      /\ target (other (selector s)) s' = target (other (selector s)) s)
  /\ (forall (btn : PinStatus) (tc tp : Z) (s : State),
         press_accepted btn tc s = true ->
         current_setting s = 0 \/ current_setting s = 1 ->
         let s' := handleButton btn tc tp s in
         selector s' = other (selector s)
         /\ (current_setting s' = 0 \/ current_setting s' = 1)
         /\ desired_temp s' = desired_temp s
         /\ desired_meat_temp s' = desired_meat_temp s)
  /\ (forall (clk0 : PinStatus) (h : list Pass),
         current_setting (run (initial_state clk0) h) = 0
         \/ current_setting (run (initial_state clk0) h) = 1).
Proof.
  split; [|split].
  - intros clk dt s T A s'. subst s'.
    rewrite (handleEncoder_tick clk dt s T).
    pose proof (tick_step_cases clk dt) as D.
    fold (tick_step clk dt).
    unfold selector, adjust in *.
    destruct (current_setting s =? 0) eqn:C;
      cbn [current_setting desired_temp desired_meat_temp target other
           set_encoder_state_last set_desired_temp set_desired_meat_temp] in *;
      rewrite C; cbn [target]; rewrite int_add_adjustable by assumption;
      auto.
  - intros btn tc tp s P C s'. subst s'. unfold handleButton. rewrite P.
    unfold selector.
    cbn [current_setting desired_temp desired_meat_temp set_button].
    destruct C as [-> | ->]; cbn; auto.
  - intros clk0 h. apply run_setting. left. reflexivity.
Qed.

(** A counter-clockwise tick at the enclosure target [INT_MIN + 2] gives
    [INT_MIN]; a press moves the selector from Enclosure to Probe. *)
Lemma encoder_and_button_witness :
  desired_temp (handleEncoder HIGH HIGH state_target_floor) = INT_MIN
  /\ selector (handleButton LOW 501 501 (initial_state LOW)) = ProbeTarget.
Proof.
  split.
  - destruct (proj1 encoder_and_button HIGH HIGH state_target_floor)
      as (_ & _ & E & _).
    + reflexivity.
    + split; evaluate.
    + exact E.
  - destruct (proj1 (proj2 encoder_and_button) LOW 501 501
                (initial_state LOW)) as (E & _).
    + reflexivity.
    + left. reflexivity.
    + exact E.
Defined.

(** ** C9: the clamp of the readings *)

Lemma clamp_temp_spec (v : Z) :
  clamp_temp v <= 999
  /\ (999 < v -> clamp_temp v = 999) /\ (v <= 999 -> clamp_temp v = v).
Proof.
  unfold clamp_temp.
  destruct (Z.ltb_spec 999 v); repeat split; intros; lia.
Qed.

Lemma control_temps (i : LoopInput) (s : State) :
  (top_temp (control i s), bottom_temp (control i s), meat_temp (control i s))
  = (top_temp s, bottom_temp s, meat_temp s).
Proof.
  unfold control. destruct (running s); [|reflexivity].
  destruct (controlFan_frame (millis (clk_fan i))
              (controlHeater (millis (clk_heater i)) s)) as (_ & _ & E & _).
  destruct (controlHeater_frame (millis (clk_heater i)) s)
    as (_ & _ & E' & _).
  cbv zeta in E, E'. congruence.
Qed.

Lemma loop_stored (c : Channel) (i : LoopInput) (s : State) :
  stored c (loop i s) = reading c (raw_of c i).
Proof.
  rewrite loop_sense. pose proof (control_temps i (sense i s)) as E.
  destruct (sense_fields i s) as (_ & _ & _ & T & _). cbv zeta in T.
  rewrite T in E. injection E as Et Eb Em. destruct c; assumption.
Qed.

(** C9 as the claim has it does not hold: the Top thermocouple gives 998,
    a value at or below 999, and the loop stores 999; the Bottom one gives
    500 and the loop stores 503.  The calibration offset of the channel
    (3 for Top and for Bottom) is added before the clamp. *)
Lemma raw_value_not_unchanged :
  raw_of Top pass_warm = 998
  /\ stored Top (loop pass_warm (initial_state LOW)) = 999
  /\ raw_of Bottom pass_warm = 500
  /\ stored Bottom (loop pass_warm (initial_state LOW)) = 503
  /\ ~ (forall (c : Channel) (raw : Z), raw <= 999 -> reading c raw = raw).
Proof.
  repeat split. intros H. specialize (H Top 998 ltac:(lia)). discriminate H.
Qed.

(** C9, amended.  For every channel and every value given by its sensor,
    the reading that the loop stores is at most 999.  It is the sensor's
    value plus the calibration offset of the channel (3 for Top and Bottom,
    0 for Probe), clamped: 999 when the sum exceeds 999, the sum itself
    otherwise (for every sensor value whose sum with the offset an [int]
    holds).  What the pass does after the clamp (emergency check, heater,
    fan) depends on the sensors through these readings only. *)
Theorem readings_clamped :
  (forall (c : Channel) (raw : Z), reading c raw <= 999)
  /\ (offset Top, offset Bottom, offset Probe) = (3, 3, 0)
  /\ (forall (c : Channel) (raw : Z),
         INT_MIN <= raw <= INT_MAX - offset c ->
         (999 < raw + offset c -> reading c raw = 999)
         /\ (raw + offset c <= 999 -> reading c raw = raw + offset c))
  /\ (forall (c : Channel) (i : LoopInput) (s : State),
         stored c (loop i s) = reading c (raw_of c i))
  /\ (forall (i i' : LoopInput) (s : State),
         in_switch i = in_switch i' ->
         (clk_switch i, clk_heater i, clk_fan i)
         = (clk_switch i', clk_heater i', clk_fan i') ->
         (forall c, reading c (raw_of c i) = reading c (raw_of c i')) ->
         loop i s = loop i' s).
Proof.
  split; [|split; [|split; [|split]]].
  - intros c raw. unfold reading. apply clamp_temp_spec.
  - reflexivity.
  - intros c raw R. unfold reading, unclamped, int_add.
    assert (O : 0 <= offset c <= 3) by (destruct c; cbv; split; discriminate).
    rewrite wrap_int_exact by (unfold INT_MIN, INT_MAX in *; lia).
    destruct (clamp_temp_spec (raw + offset c)) as (_ & A & B).
    split; assumption.
  - apply loop_stored.
  - intros i i' s Sw Ck R. injection Ck as C1 C2 C3.
    pose proof (R Top) as Rt. pose proof (R Bottom) as Rb.
    pose proof (R Probe) as Rp. simpl in Rt, Rb, Rp.
    unfold loop, control, read_temperatures, read_switch.
    rewrite Sw, C1, C2, C3, Rt, Rb, Rp. reflexivity.
Qed.

Lemma readings_clamped_witness :
  reading Top 998 = 999 /\ reading Bottom 500 = 503
  /\ reading Probe 5000 = 999
  /\ loop pass_glitch state_just_switched
     = loop pass_glitch' state_just_switched.
Proof.
  pose proof readings_clamped as (_ & _ & R & _ & L).
  split; [|split; [|split]].
  - apply (R Top 998); [split|]; evaluate.
  - apply (R Bottom 500); [split|]; evaluate.
  - apply (R Probe 5000); [split|]; evaluate.
  - apply (L pass_glitch pass_glitch' state_just_switched);
      [reflexivity | reflexivity | intros c; destruct c; reflexivity].
Defined.

(** ** C10: what the forced-off branch leaves alone *)







(** ** C3: minimum dwell *)

Lemma heater_switched_spec (i : LoopInput) (s : State) :
  if heater_switched i s
  then HEATER_CYCLE_TIME
       <= ulong_sub (millis (clk_heater i)) (last_heater_toggle_time s)
       /\ last_heater_toggle_time (loop i s) = millis (clk_heater i)
  else last_heater_toggle_time (loop i s) = last_heater_toggle_time s.
Proof.
  unfold heater_switched. rewrite loop_sense. unfold control.
  destruct (sense_fields i s) as (_ & _ & _ & _ & _ & L & _).
  cbv zeta in *. set (s1 := sense i s) in *. injection L as L _.
  destruct (running s1); simpl; [|exact L].
  destruct (controlFan_frame (millis (clk_fan i))
              (controlHeater (millis (clk_heater i)) s1)) as (_ & -> & _).
  unfold controlHeater.
  destruct (converge_target_frame s1) as (F1 & F2 & _).
  cbv zeta in F1, F2. set (s2 := converge_target s1) in *.
  injection F1 as _ _ _ Fh _. injection F2 as Fl _.
  rewrite <- Fh, <- L, <- Fl.
  destruct (switch_heater_cases (millis (clk_heater i)) s2)
    as [(H & _ & D & ->) | [(H & _ & D & ->) | (-> & _)]];
    cbn [heater_on last_heater_toggle_time set_heater].
  - rewrite H. simpl. split; [apply heater_dwell_over_spec, D | reflexivity].
  - rewrite H. simpl. split; [apply heater_dwell_over_spec, D | reflexivity].
  - rewrite eqb_reflx. reflexivity.
Qed.

Lemma fan_switched_spec (i : LoopInput) (s : State) :
  if fan_switched i s
  then FAN_CYCLE_TIME
       <= ulong_sub (millis (clk_fan i)) (last_fan_toggle_time s)
       /\ last_fan_toggle_time (loop i s) = millis (clk_fan i)
  else last_fan_toggle_time (loop i s) = last_fan_toggle_time s.
Proof.
  unfold fan_switched. rewrite loop_sense. unfold control.
  destruct (sense_fields i s) as (_ & _ & _ & _ & _ & L & _).
  cbv zeta in *. set (s1 := sense i s) in *. injection L as _ L.
  destruct (running s1); simpl; [|exact L].
  destruct (controlHeater_frame (millis (clk_heater i)) s1) as (_ & Fl & _).
  cbv zeta in Fl. set (s2 := controlHeater (millis (clk_heater i)) s1) in *.
  rewrite <- L, <- Fl.
  destruct (controlFan_cases (millis (clk_fan i)) s2)
    as [(H & _ & D & ->) | [(H & _ & D & ->) | (-> & _)]];
    cbn [fan_on last_fan_toggle_time set_fan].
  - rewrite H. simpl. split; [apply fan_dwell_over_spec, D | reflexivity].
  - rewrite H. simpl. split; [apply fan_dwell_over_spec, D | reflexivity].
  - rewrite eqb_reflx. reflexivity.
Qed.

Section Dwell.

Variable d : Z.
Variable last : State -> Z.
Variable clock : LoopInput -> Z.
Variable switched : LoopInput -> State -> bool.

Hypothesis switched_spec : forall i s,
  if switched i s
  then d <= ulong_sub (millis (clock i)) (last s)
       /\ last (loop i s) = millis (clock i)
  else last (loop i s) = last s.
Hypothesis loop1_last : forall j s, last (loop1 j s) = last s.

(** With the last switch recorded at the instant [L] and the clock not
    running backwards, every later switch comes [d] or more after [L], and
    any two of them are [d] or more apart. *)
Lemma instants_spaced (h : list Pass) :
  forall (s : State) (L lo : Z),
    last s = millis L -> L <= lo ->
    ascending lo (clocks clock h) = true ->
    Forall (fun x => L + d <= x) (instants switched clock s h)
    /\ spaced d (instants switched clock s h) = true.
Proof.
  induction h as [|[i|j] h IH]; intros s L lo E Llo A; simpl in *.
  - split; [constructor | reflexivity].
  - apply andb_true_iff in A. destruct A as [A1 A2]. apply Z.leb_le in A1.
    pose proof (switched_spec i s) as Sp.
    destruct (switched i s); simpl.
    + destruct Sp as [Dw La]. rewrite E in Dw.
      pose proof (elapsed_real (clock i) L d ltac:(lia) Dw) as Gap.
      destruct (IH (loop i s) (clock i) (clock i) La ltac:(lia) A2)
        as [F Sd].
      split.
      * constructor; [lia|].
        eapply Forall_impl; [|exact F]. simpl. intros; lia.
      * rewrite Sd, andb_true_r. apply forallb_forall. intros x Hx.
        rewrite Forall_forall in F. specialize (F x Hx). apply Z.leb_le. lia.
    + apply (IH (loop i s) L (clock i)); [congruence | lia | exact A2].
  - apply (IH (loop1 j s) L lo); [rewrite loop1_last; exact E | lia | exact A].
Qed.

End Dwell.

Lemma loop1_last_heater (j : Loop1Input) (s : State) :
  last_heater_toggle_time (loop1 j s) = last_heater_toggle_time s.
Proof.
  destruct (loop1_frame j s) as (_ & F & _).
  cbv zeta in F. injection F as F _. exact F.
Qed.

Lemma loop1_last_fan (j : Loop1Input) (s : State) :
  last_fan_toggle_time (loop1 j s) = last_fan_toggle_time s.
Proof.
  destruct (loop1_frame j s) as (_ & F & _).
  cbv zeta in F. injection F as _ F. exact F.
Qed.

Lemma heater_toggles_spaced (s : State) (h : list Pass) (L : Z) :
  last_heater_toggle_time s = millis L ->
  ascending L (heater_clocks h) = true ->
  spaced HEATER_CYCLE_TIME (heater_toggles s h) = true.
Proof.
  intros E A.
  exact (proj2 (instants_spaced HEATER_CYCLE_TIME last_heater_toggle_time
                  clk_heater heater_switched heater_switched_spec
                  loop1_last_heater h s L L E (Z.le_refl L) A)).
Qed.

Lemma fan_toggles_spaced (s : State) (h : list Pass) (L : Z) :
  last_fan_toggle_time s = millis L ->
  ascending L (fan_clocks h) = true ->
  spaced FAN_CYCLE_TIME (fan_toggles s h) = true.
Proof.
  intros E A.
  exact (proj2 (instants_spaced FAN_CYCLE_TIME last_fan_toggle_time
                  clk_fan fan_switched fan_switched_spec
                  loop1_last_fan h s L L E (Z.le_refl L) A)).
Qed.

(** C3 as the claim has it does not hold: the heater and the fan come on
    at 60000 ms, the switch goes off, and both outputs change again at
    60100 ms, 100 ms after their last change. *)
Lemma output_changes_within_dwell :
  ascending 0 (heater_clocks history_cut_short) = true
  /\ ascending 0 (fan_clocks history_cut_short) = true
  /\ heater_changes (initial_state LOW) history_cut_short = [60000; 60100]
  /\ fan_changes (initial_state LOW) history_cut_short = [60000; 60100]
  /\ spaced HEATER_CYCLE_TIME
       (heater_changes (initial_state LOW) history_cut_short) = false
  /\ spaced FAN_CYCLE_TIME
       (fan_changes (initial_state LOW) history_cut_short) = false.
Proof. repeat split. Qed.

(** C3, amended.  For every history from power-up, with passes that leave
    the system off or in Error among the others, and a clock that does not
    run backwards: the instants at which the heater control switched the
    heater are 10 s or more apart, any two of them, and the instants at
    which the fan control switched the fan are 60 s or more apart.  (The
    switch-off forced when the system is not running waits for no dwell
    and records no instant; it is not among these.) *)
Theorem controller_toggles_spaced (clk0 : PinStatus) (h : list Pass) :
  ascending 0 (heater_clocks h) = true ->
  ascending 0 (fan_clocks h) = true ->
  spaced HEATER_CYCLE_TIME (heater_toggles (initial_state clk0) h) = true
  /\ spaced FAN_CYCLE_TIME (fan_toggles (initial_state clk0) h) = true.
Proof.
  intros Ah Af. split.
  - apply (heater_toggles_spaced (initial_state clk0) h 0);
      [reflexivity | exact Ah].
  - apply (fan_toggles_spaced (initial_state clk0) h 0);
      [reflexivity | exact Af].
Qed.

Lemma controller_toggles_spaced_witness :
  heater_toggles (initial_state LOW) history_heating = [10000; 20000; 30000]
  /\ spaced HEATER_CYCLE_TIME
       (heater_toggles (initial_state LOW) history_heating) = true
  /\ spaced FAN_CYCLE_TIME
       (fan_toggles (initial_state LOW) history_heating) = true.
Proof.
  split; [reflexivity|].
  apply (controller_toggles_spaced LOW history_heating); reflexivity.
Defined.

(** * Further properties of the sketch *)

(** ** Text *)

Lemma length_append (a b : string) :
  String.length (a ++ b) = (String.length a + String.length b)%nat.
Proof. induction a as [|c a IH]; simpl; [reflexivity | now rewrite IH]. Qed.

Lemma add_spaces_length (n : nat) (text : string) :
  String.length (add_spaces n text) = (n + String.length text)%nat.
Proof.
  revert text. induction n as [|n IH]; intros text; simpl; [reflexivity|].
  rewrite IH, length_append. simpl. lia.
Qed.

Lemma pad_to_20_length (text : string) :
  String.length (pad_to_20 text) = Nat.max 20 (String.length text).
Proof.
  unfold pad_to_20. destruct (Nat.ltb_spec (String.length text) 20).
  - rewrite add_spaces_length. lia.
  - lia.
Qed.

(** A property that evaluation shows for each number below [b] holds for
    all of them. *)
Lemma all_below (P : Z -> bool) (b : Z) :
  forallb P (map Z.of_nat (seq 0 (Z.to_nat b))) = true ->
  forall n, 0 <= n < b -> P n = true.
Proof.
  intros H n R. rewrite forallb_forall in H. apply H.
  apply in_map_iff. exists (Z.to_nat n). split; [lia|].
  apply in_seq. lia.
Qed.

(** The decimal text of a number below 10000 has as many characters as
    the number has digits. *)
Lemma String_of_int_width (n : Z) :
  0 <= n < 10000 ->
  String.length (String_of_int n)
  = if n <? 10 then 1%nat else if n <? 100 then 2%nat
    else if n <? 1000 then 3%nat else 4%nat.
Proof.
  intros R.
  pose (P := fun n => Nat.eqb (String.length (String_of_int n))
                        (if n <? 10 then 1 else if n <? 100 then 2
                         else if n <? 1000 then 3 else 4)).
  assert (H : P n = true).
  { apply (all_below P 10000); [vm_compute; reflexivity | exact R]. }
  apply Nat.eqb_eq, H.
Qed.

(** A number below 100 with the zero of lines 380, 382, 384 before it is
    its two digits. *)
Lemma zero_padded (n : Z) :
  0 <= n < 100 ->
  ((if (n <? 10)%Z then "0" else EmptyString) ++ String_of_int n)%string
  = two_digits n.
Proof.
  intros R.
  pose (P := fun n =>
               String.eqb
                 ((if (n <? 10)%Z then "0" else EmptyString)
                  ++ String_of_int n)%string
                 (two_digits n)).
  assert (H : P n = true).
  { apply (all_below P 100); [vm_compute; reflexivity | exact R]. }
  apply String.eqb_eq, H.
Qed.

Lemma append_assoc (a b c : string) :
  ((a ++ b) ++ c)%string = (a ++ (b ++ c))%string.
Proof. induction a as [|x a IH]; simpl; [reflexivity | now rewrite IH]. Qed.

Lemma time_field_digits (n : Z) (unit : string) :
  0 <= n < 100 -> time_field n unit = (two_digits n ++ unit)%string.
Proof.
  intros R. unfold time_field. rewrite <- append_assoc, zero_padded by exact R.
  reflexivity.
Qed.

Lemma time_field_width (n : Z) (unit : string) :
  0 <= n < 100 ->
  String.length (time_field n unit) = (2 + String.length unit)%nat.
Proof.
  intros R. unfold time_field. rewrite !length_append.
  rewrite String_of_int_width by lia.
  destruct (Z.ltb_spec n 10).
  - reflexivity.
  - destruct (Z.ltb_spec n 100); [reflexivity | lia].
Qed.

(** ** [getElapsedTime()] *)

Lemma ulong_sub_range (a b : Z) : 0 <= ulong_sub a b < ULONG_MOD.
Proof. unfold ulong_sub, ULONG_MOD. apply Z.mod_pos_bound. lia. Qed.

(** Hours, minutes and seconds of lines 374-376 are those of the elapsed
    time, cut to the second. *)
Lemma time_fields (e : Z) :
  0 <= e ->
  0 <= hours_of e
  /\ 0 <= minutes_of e < 60 /\ 0 <= seconds_of e < 60
  /\ e / 1000 = hours_of e * 3600 + minutes_of e * 60 + seconds_of e.
Proof.
  intros He. unfold hours_of, minutes_of, seconds_of.
  pose proof (Z.div_mod e 3600000 ltac:(lia)) as D1.
  pose proof (Z.mod_pos_bound e 3600000 ltac:(lia)) as B1.
  set (h := e / 3600000) in *. set (r := e mod 3600000) in *.
  assert (E : e mod 60000 = r mod 60000).
  { replace e with (r + (60 * h) * 60000) at 1 by lia.
    apply Z.mod_add. lia. }
  rewrite E.
  pose proof (Z.div_mod r 60000 ltac:(lia)) as D2.
  pose proof (Z.mod_pos_bound r 60000 ltac:(lia)) as B2.
  set (m := r / 60000) in *. set (q := r mod 60000) in *.
  pose proof (Z.div_mod q 1000 ltac:(lia)) as D3.
  pose proof (Z.mod_pos_bound q 1000 ltac:(lia)) as B3.
  set (x := q / 1000) in *. set (y := q mod 1000) in *.
  assert (Hh : 0 <= h) by (apply Z.div_pos; lia).
  assert (Hm : 0 <= m < 60) by lia.
  assert (Hx : 0 <= x < 60) by lia.
  split; [exact Hh|]. split; [exact Hm|]. split; [exact Hx|].
  symmetry. apply (Z.div_unique e 1000 _ y); lia.
Qed.

Lemma time_text_short (e : Z) :
  0 <= e -> hours_of e < 100 ->
  time_text e
  = (two_digits (hours_of e) ++ "h"
     ++ two_digits (minutes_of e) ++ "m"
     ++ two_digits (seconds_of e) ++ "s")%string.
Proof.
  intros He H100.
  destruct (time_fields e He) as (Hh & Hm & Hs & _).
  unfold time_text.
  rewrite !time_field_digits by lia. rewrite !append_assoc. reflexivity.
Qed.

Lemma time_text_long (e : Z) :
  0 <= e < ULONG_MOD -> 100 <= hours_of e ->
  (9 < String.length (time_text e))%nat.
Proof.
  intros W H100.
  destruct (time_fields e ltac:(lia)) as (Hh & Hm & Hs & _).
  assert (Hb : hours_of e < 1194).
  { unfold hours_of. apply Z.div_lt_upper_bound; [lia|].
    unfold ULONG_MOD in *. change (2 ^ 32) with 4294967296 in W. lia. }
  unfold time_text. rewrite !length_append.
  rewrite (time_field_width (minutes_of e)) by lia.
  rewrite (time_field_width (seconds_of e)) by lia.
  unfold time_field. rewrite length_append, length_append.
  rewrite String_of_int_width by lia.
  destruct (Z.ltb_spec (hours_of e) 10); [lia|].
  destruct (Z.ltb_spec (hours_of e) 100); [lia|].
  destruct (Z.ltb_spec (hours_of e) 1000); simpl; lia.
Qed.

Lemma getElapsedTime_real (clk start : Z) (s : State) :
  timer_start_time s = millis start -> 0 <= clk - start < ULONG_MOD ->
  getElapsedTime (millis clk) s = time_text (clk - start).
Proof.
  intros St W. unfold getElapsedTime.
  rewrite St, ulong_sub_real by exact W. reflexivity.
Qed.

(** X1.  [getElapsedTime()] called at [clk] ms in a session started at
    [start] ms, less than 2^32 ms before (the clock may have wrapped in
    between): hours, minutes and seconds add up to the elapsed time cut to
    the second, minutes and seconds are below 60, and below 100 hours the
    text is the two digits of each with their units, nine characters in
    all; from 100 hours on it is longer. *)
Theorem elapsed_time_shown (clk start : Z) (s : State) :
  timer_start_time s = millis start -> 0 <= clk - start < ULONG_MOD ->
  let e := clk - start in
  e / 1000 = hours_of e * 3600 + minutes_of e * 60 + seconds_of e
  /\ 0 <= hours_of e /\ 0 <= minutes_of e < 60 /\ 0 <= seconds_of e < 60
  /\ (hours_of e < 100 ->
      getElapsedTime (millis clk) s
      = (two_digits (hours_of e) ++ "h"
         ++ two_digits (minutes_of e) ++ "m"
         ++ two_digits (seconds_of e) ++ "s")%string)
  /\ (100 <= hours_of e ->
      (9 < String.length (getElapsedTime (millis clk) s))%nat).
Proof.
  intros St W e.
  destruct (time_fields e ltac:(unfold e; lia)) as (Hh & Hm & Hs & Sum).
  rewrite (getElapsedTime_real clk start s St W). fold e.
  split; [exact Sum|]. split; [exact Hh|]. split; [exact Hm|].
  split; [exact Hs|]. split.
  - apply time_text_short. unfold e; lia.
  - apply time_text_long. exact W.
Qed.

Lemma elapsed_time_shown_witness :
  getElapsedTime (millis clock_session) state_session = "01h02m05s"%string.
Proof.
  destruct (elapsed_time_shown clock_session 2000 state_session)
    as (_ & _ & _ & _ & T & _).
  - reflexivity.
  - split; evaluate.
  - apply T. evaluate.
Defined.

(** ** [updateDisplay()] *)

Lemma add_spaces_append (n : nat) (text : string) :
  add_spaces n text = (text ++ add_spaces n EmptyString)%string.
Proof.
  revert text. induction n as [|n IH]; intros text; simpl.
  - induction text as [|c text IHt]; simpl; [reflexivity | now rewrite <- IHt].
  - rewrite IH, (IH " "%string), append_assoc. reflexivity.
Qed.

(** X2.  The status row is 20 characters long in every state: the text of
    the state (error, off, or the two actuators) followed by spaces only,
    so that it overwrites the whole row of the LCD. *)
Theorem status_row_fills_line (t : Z) (s : State) :
  String.length (row3 (updateDisplay t s)) = LCD_COLS
  /\ row3 (updateDisplay t s)
     = (status_line s
        ++ add_spaces (20 - String.length (status_line s)) EmptyString)%string
  /\ (error_state s = true ->
      row3 (updateDisplay t s) = "ERROR: HIGH TEMP!!!!"%string).
Proof.
  cbn [row3 updateDisplay]. unfold status_text, status_line.
  destruct (error_state s), (system_on s), (heater_on s), (fan_on s);
    repeat split; intros; try reflexivity; try discriminate.
Qed.

(** X3.  The title row is 20 characters long when the switch is off (or
    an emergency was raised in this pass), and when the system runs in a
    session of less than 100 hours; from 100 hours on it is longer than the
    row.  With the error latched and the switch on, only [Smokey! ] is
    printed: that is the case at the end of every pass of the loop that
    starts with the error latched and reads the switch on and no reading
    at the emergency threshold. *)
Theorem title_row_width (clk start : Z) (s : State) :
  timer_start_time s = millis start -> 0 <= clk - start < ULONG_MOD ->
  let title := row0 (updateDisplay (millis clk) s) in
  (system_on s = false -> String.length title = LCD_COLS)
  /\ (running s = true -> hours_of (clk - start) < 100 ->
      String.length title = LCD_COLS)
  /\ (running s = true -> 100 <= hours_of (clk - start) ->
      (LCD_COLS < String.length title)%nat)
  /\ (error_state s = true -> system_on s = true ->
      title = "Smokey! "%string)
  /\ (forall i : LoopInput,
         error_state s = true -> in_switch i = LOW -> tripping i = false ->
         row0 (updateDisplay (millis clk) (loop i s)) = "Smokey! "%string).
Proof.
  intros St W title. subst title. cbn [row0 updateDisplay].
  pose proof (getElapsedTime_real clk start s St W) as G.
  pose proof (time_text_short (clk - start) ltac:(lia)) as T.
  pose proof (time_text_long (clk - start) W) as L.
  split; [|split; [|split; [|split]]].
  - intros Off. unfold title_text. rewrite Off, andb_false_r. reflexivity.
  - unfold running. intros R H. rewrite andb_comm in R.
    unfold title_text. rewrite R, !length_append, G, (T H). reflexivity.
  - unfold running. intros R H. rewrite andb_comm in R.
    unfold title_text. rewrite R, !length_append, G.
    specialize (L H). unfold LCD_COLS. simpl. lia.
  - intros E On. unfold title_text. rewrite E, On. reflexivity.
  - intros i E Sw T'.
    pose proof (loop_keeps_error i s E) as E'.
    assert (On : system_on (loop i s) = true).
    { rewrite loop_sense. destruct (sense_fields i s) as (On & _ & Er & _).
      cbv zeta in On, Er. rewrite Sw, T' in On. simpl in On.
      unfold control. rewrite (error_not_running (sense i s)); [exact On|].
      rewrite Er, E. reflexivity. }
    unfold title_text. rewrite E', On. reflexivity.
Qed.

Lemma air_field_width (n : Z) :
  10 <= n <= 999 ->
  String.length
    ((if (n <? 100)%Z then " " else EmptyString) ++ String_of_int n)%string
  = 3%nat.
Proof.
  intros R. rewrite length_append, String_of_int_width by lia.
  destruct (Z.ltb_spec n 10); [lia|].
  destruct (Z.ltb_spec n 100); [reflexivity|].
  destruct (Z.ltb_spec n 1000); [reflexivity | lia].
Qed.

Lemma meat_field_width (n : Z) :
  0 <= n <= 999 ->
  String.length
    ((if (n <? 10)%Z then "  "
      else if (n <? 100)%Z then " " else EmptyString)
     ++ String_of_int n)%string
  = 3%nat.
Proof.
  intros R. rewrite length_append, String_of_int_width by lia.
  destruct (Z.ltb_spec n 10); [reflexivity|].
  destruct (Z.ltb_spec n 100); [reflexivity|].
  destruct (Z.ltb_spec n 1000); [reflexivity | lia].
Qed.

(** X4.  The air row is 20 characters long when Bottom, Top and the
    enclosure target are between 10 and 999, and the meat row when the
    Probe reading is between 0 and 999 and the probe target between 100
    and 999.  The probe target is printed without padding: below 100 (and
    not below 10) the meat row is one character short of the row. *)
Theorem reading_rows_width (t : Z) (s : State) :
  (10 <= bottom_temp s <= 999 -> 10 <= top_temp s <= 999 ->
   10 <= desired_temp s <= 999 ->
   String.length (row1 (updateDisplay t s)) = LCD_COLS)
  /\ (0 <= meat_temp s <= 999 -> 100 <= desired_meat_temp s <= 999 ->
      String.length (row2 (updateDisplay t s)) = LCD_COLS)
  /\ (0 <= meat_temp s <= 999 -> 10 <= desired_meat_temp s < 100 ->
      String.length (row2 (updateDisplay t s)) = 19%nat).
Proof.
  cbn [row1 row2 updateDisplay]. unfold LCD_COLS.
  split; [|split].
  - intros Rb Rt Rd. unfold air_text.
    rewrite length_append.
    rewrite <- (append_assoc _ (String_of_int (bottom_temp s))).
    rewrite length_append, air_field_width by exact Rb.
    rewrite length_append.
    rewrite <- (append_assoc _ (String_of_int (top_temp s))).
    rewrite length_append, air_field_width by exact Rt.
    rewrite length_append, length_append, air_field_width by exact Rd.
    destruct (current_setting s =? 0); reflexivity.
  - intros Rm Rd. unfold meat_text.
    rewrite length_append.
    rewrite <- (append_assoc _ (String_of_int (meat_temp s))).
    rewrite length_append, meat_field_width by exact Rm.
    rewrite !length_append, String_of_int_width by lia.
    destruct (Z.ltb_spec (desired_meat_temp s) 10); [lia|].
    destruct (Z.ltb_spec (desired_meat_temp s) 100); [lia|].
    destruct (Z.ltb_spec (desired_meat_temp s) 1000); [|lia].
    destruct (current_setting s =? 1); reflexivity.
  - intros Rm Rd. unfold meat_text.
    rewrite length_append.
    rewrite <- (append_assoc _ (String_of_int (meat_temp s))).
    rewrite length_append, meat_field_width by exact Rm.
    rewrite !length_append, String_of_int_width by lia.
    destruct (Z.ltb_spec (desired_meat_temp s) 10); [lia|].
    destruct (Z.ltb_spec (desired_meat_temp s) 100); [|lia].
    destruct (current_setting s =? 1); reflexivity.
Qed.

Lemma display_sample :
  updateDisplay (millis clock_session) state_session
  = {| row0 := "Smokey!    01h02m05s";
       row1 := "Air :  60-100 ->*230";
       row2 := "Meat:      50 -> 190";
       row3 := "H:ON  F:ON          " |}.
Proof. reflexivity. Qed.

(** ** The control loop *)

Ltac unfold_loop :=
  unfold loop, control, force_off, controlFan, controlHeater, switch_heater,
    converge_target, check_emergency, read_temperatures, read_switch.

Ltac unfold_loop1 := unfold loop1, handleButton, handleEncoder, adjust.

(** X5.  The session timer is restarted by a pass of the control loop
    exactly when the pass reads the switch on and the pass before read it
    off, error latched or not; no other pass of either core touches it.
    After a pass of the loop, [system_on_prev] is what the pass read. *)
Theorem session_timer_restarts (i : LoopInput) (j : Loop1Input) (s : State) :
  timer_start_time (loop i s)
  = (if pin_not (in_switch i) && negb (system_on_prev s)
     then millis (clk_switch i) else timer_start_time s)
  /\ system_on_prev (loop i s) = pin_not (in_switch i)
  /\ timer_start_time (loop1 j s) = timer_start_time s
  /\ system_on_prev (loop1 j s) = system_on_prev s.
Proof.
  split; [|split; [|split]].
  - unfold_loop.
    destruct (pin_not (in_switch i)), (system_on_prev s); simpl;
      branch; reflexivity.
  - apply loop_system_on_prev.
  - unfold_loop1. branch; reflexivity.
  - unfold_loop1. branch; reflexivity.
Qed.

(** What a pass of the control loop leaves to core 1. *)
Lemma loop_input_frame (i : LoopInput) (s : State) :
  (desired_meat_temp (loop i s), current_setting (loop i s),
   encoder_state_last (loop i s), last_button_press (loop i s))
  = (desired_meat_temp s, current_setting s,
     encoder_state_last s, last_button_press s).
Proof. unfold_loop. branch; reflexivity. Qed.

(** X6.  The two cores write one global in common, the enclosure target:
    a pass of the control loop leaves the probe target, the selector and
    the encoder and button bookkeeping as they are, and a pass of
    [loop1()] leaves the switch and error flags, the actuators and their
    pins, the toggle times, the session timer and the readings as they
    are. *)
Theorem cores_share_one_global (i : LoopInput) (j : Loop1Input) (s : State) :
  (desired_meat_temp (loop i s), current_setting (loop i s),
   encoder_state_last (loop i s), last_button_press (loop i s))
  = (desired_meat_temp s, current_setting s,
     encoder_state_last s, last_button_press s)
  /\ (system_on (loop1 j s), system_on_prev (loop1 j s),
      error_state (loop1 j s), timer_start_time (loop1 j s))
     = (system_on s, system_on_prev s, error_state s, timer_start_time s)
  /\ (heater_on (loop1 j s), heater_relay_pin (loop1 j s),
      last_heater_toggle_time (loop1 j s))
     = (heater_on s, heater_relay_pin s, last_heater_toggle_time s)
  /\ (fan_on (loop1 j s), fan_control_pin (loop1 j s),
      last_fan_toggle_time (loop1 j s))
     = (fan_on s, fan_control_pin s, last_fan_toggle_time s)
  /\ (top_temp (loop1 j s), bottom_temp (loop1 j s), meat_temp (loop1 j s))
     = (top_temp s, bottom_temp s, meat_temp s).
Proof.
  split; [apply loop_input_frame|].
  split; [|split; [|split]]; unfold_loop1; branch; reflexivity.
Qed.

Lemma controlHeater_set_fan (th : Z) (p : PinStatus) (on : bool)
    (stamp : option Z) (s : State) :
  controlHeater th (set_fan p on stamp s)
  = set_fan p on stamp (controlHeater th s).
Proof.
  unfold controlHeater, converge_target.
  cbn [desired_meat_temp meat_temp set_fan].
  destruct (desired_meat_temp s <=? meat_temp s);
    unfold switch_heater, below_band, at_target, heater_dwell_over;
    cbn [heater_on top_temp bottom_temp desired_temp last_heater_toggle_time
         set_fan set_desired_temp];
    branch; reflexivity.
Qed.

(** X7.  The two controllers do not depend on each other: run in either
    order, at whatever instants, they leave the same state. *)
Theorem controllers_commute (th tf : Z) (s : State) :
  controlFan tf (controlHeater th s) = controlHeater th (controlFan tf s).
Proof.
  destruct (controlHeater_frame th s) as (F1 & F2 & F3 & _).
  cbv zeta in F1, F2, F3.
  injection F1 as _ _ _ Ff. injection F3 as Ft Fb _.
  unfold controlFan, temp_difference, fan_dwell_over.
  rewrite Ff, F2, Ft, Fb.
  destruct (negb (fan_on s) && _ && _).
  - symmetry. apply controlHeater_set_fan.
  - destruct (fan_on s && _ && _).
    + symmetry. apply controlHeater_set_fan.
    + reflexivity.
Qed.

(** ** Invariants of the histories *)






Lemma millis_small (t : Z) : 0 <= t < ULONG_MOD -> millis t = t.
Proof. intros H. unfold millis. apply Z.mod_small, H. Qed.

Lemma loop_heater_quiet (i : LoopInput) (s : State) :
  heater_on s = false -> last_heater_toggle_time s = 0 ->
  0 <= clk_heater i < HEATER_CYCLE_TIME ->
  heater_on (loop i s) = false /\ last_heater_toggle_time (loop i s) = 0.
Proof.
  intros Off L0 T.
  pose proof (heater_switched_spec i s) as Sp.
  destruct (heater_switched i s) eqn:Sw.
  - exfalso. destruct Sp as (D & _). rewrite L0 in D.
    change (ulong_sub (millis (clk_heater i)) 0)
      with (ulong_sub (millis (clk_heater i)) (millis 0)) in D.
    rewrite ulong_sub_real in D;
      unfold HEATER_CYCLE_TIME, ULONG_MOD in *;
      change (2 ^ 32) with 4294967296; lia.
  - split; [|congruence].
    unfold heater_switched in Sw. rewrite loop_sense. unfold control.
    destruct (sense_fields i s) as (_ & _ & _ & _ & Ac & _).
    cbv zeta in *. set (s1 := sense i s) in *. injection Ac as Ah _ _ _.
    destruct (running s1); [|reflexivity].
    destruct (controlFan_frame (millis (clk_fan i))
                (controlHeater (millis (clk_heater i)) s1)) as (G & _).
    cbv zeta in G. injection G as _ _ _ ->.
    simpl in Sw. apply negb_false_iff, eqb_prop in Sw. congruence.
Qed.

Lemma loop_fan_quiet (i : LoopInput) (s : State) :
  fan_on s = false -> last_fan_toggle_time s = 0 ->
  0 <= clk_fan i < FAN_CYCLE_TIME ->
  fan_on (loop i s) = false /\ last_fan_toggle_time (loop i s) = 0.
Proof.
  intros Off L0 T.
  pose proof (fan_switched_spec i s) as Sp.
  destruct (fan_switched i s) eqn:Sw.
  - exfalso. destruct Sp as (D & _). rewrite L0 in D.
    change (ulong_sub (millis (clk_fan i)) 0)
      with (ulong_sub (millis (clk_fan i)) (millis 0)) in D.
    rewrite ulong_sub_real in D;
      unfold FAN_CYCLE_TIME, ULONG_MOD in *;
      change (2 ^ 32) with 4294967296; lia.
  - split; [|congruence].
    unfold fan_switched in Sw. rewrite loop_sense. unfold control.
    destruct (sense_fields i s) as (_ & _ & _ & _ & Ac & _).
    cbv zeta in *. set (s1 := sense i s) in *. injection Ac as _ Af _ _.
    destruct (running s1); [|reflexivity].
    destruct (controlHeater_frame (millis (clk_heater i)) s1) as (K & _).
    cbv zeta in K. injection K as _ _ _ Kf.
    simpl in Sw. apply negb_false_iff, eqb_prop in Sw. congruence.
Qed.

(** X9.  After power-up the heater stays off through every history whose
    passes of the control loop all come before 10000 ms, and the fan
    through every history whose passes all come before 60000 ms, whatever
    the switch and the readings: the dwell is counted from the zero that
    the toggle times start with. *)
Theorem quiet_after_power_up (clk0 : PinStatus) (h : list Pass) :
  (heater_before HEATER_CYCLE_TIME h = true ->
   heater_on (run (initial_state clk0) h) = false)
  /\ (fan_before FAN_CYCLE_TIME h = true ->
      fan_on (run (initial_state clk0) h) = false).
Proof.
  split.
  - assert (G : forall s, heater_on s = false ->
                          last_heater_toggle_time s = 0 ->
                          heater_before HEATER_CYCLE_TIME h = true ->
                          heater_on (run s h) = false).
    { induction h as [|[i|j] h IH]; intros s Off L0 B; simpl in *.
      - exact Off.
      - apply andb_true_iff in B. destruct B as [B B'].
        apply andb_true_iff in B. destruct B as [B1 B2].
        apply Z.leb_le in B1. apply Z.ltb_lt in B2.
        destruct (loop_heater_quiet i s Off L0 ltac:(lia)) as [O' L'].
        apply IH; assumption.
      - destruct (loop1_frame j s) as (F1 & F2 & _). cbv zeta in F1, F2.
        injection F1 as _ _ _ Fh _. injection F2 as Fl _.
        apply IH; congruence. }
    apply G; reflexivity.
  - assert (G : forall s, fan_on s = false ->
                          last_fan_toggle_time s = 0 ->
                          fan_before FAN_CYCLE_TIME h = true ->
                          fan_on (run s h) = false).
    { induction h as [|[i|j] h IH]; intros s Off L0 B; simpl in *.
      - exact Off.
      - apply andb_true_iff in B. destruct B as [B B'].
        apply andb_true_iff in B. destruct B as [B1 B2].
        apply Z.leb_le in B1. apply Z.ltb_lt in B2.
        destruct (loop_fan_quiet i s Off L0 ltac:(lia)) as [O' L'].
        apply IH; assumption.
      - destruct (loop1_frame j s) as (F1 & F2 & _). cbv zeta in F1, F2.
        injection F1 as _ _ _ _ Ff. injection F2 as _ Fl.
        apply IH; congruence. }
    apply G; reflexivity.
Qed.

Lemma quiet_after_power_up_witness :
  heater_on (run (initial_state LOW) history_first_seconds) = false.
Proof.
  apply (proj1 (quiet_after_power_up LOW history_first_seconds)).
  reflexivity.
Defined.

(** ** Emergency and targets *)

Lemma reading_at_threshold (c : Channel) (raw : Z) :
  raw_in_range c raw ->
  ((EMERGENCY_TEMP <=? reading c raw) = true
   <-> EMERGENCY_TEMP - offset c <= raw).
Proof.
  unfold raw_in_range, reading, unclamped, int_add. intros R.
  assert (O : 0 <= offset c <= 3) by (destruct c; cbv; split; discriminate).
  rewrite wrap_int_exact by (unfold INT_MIN, INT_MAX in *; lia).
  rewrite Z.leb_le. unfold clamp_temp, EMERGENCY_TEMP.
  destruct (Z.ltb_spec 999 (raw + offset c)); split; intros; lia.
Qed.

(** X10.  On the values that the sensors give, the emergency is raised
    from 247 degrees on for the Top and the Bottom thermocouple, whose
    readings carry an offset of 3, and from 250 degrees on for the Probe;
    values above the clamp of 999 raise it too. *)
Theorem emergency_raw_thresholds (i : LoopInput) :
  raw_in_range Top (in_top i) -> raw_in_range Bottom (in_bottom i) ->
  raw_in_range Probe (in_meat i) ->
  (tripping i = true
   <-> 247 <= in_top i \/ 247 <= in_bottom i \/ 250 <= in_meat i)
  /\ (tripping i = true -> forall s, system_state (loop i s) = Error).
Proof.
  intros Rt Rb Rp. split.
  - unfold tripping. rewrite !orb_true_iff.
    rewrite (reading_at_threshold Top _ Rt).
    rewrite (reading_at_threshold Bottom _ Rb).
    rewrite (reading_at_threshold Probe _ Rp).
    unfold EMERGENCY_TEMP. cbn [offset].
    unfold THERMO_TOP_OFFSET, THERMO_BOT_OFFSET, THERMO_MEAT_OFFSET.
    split; intros H; lia.
  - intros T s. apply (loop_tripping i s T).
Qed.

Lemma emergency_raw_thresholds_witness :
  system_state (loop pass_top_247 (initial_state LOW)) = Error.
Proof.
  assert (Rt : raw_in_range Top (in_top pass_top_247)) by (split; evaluate).
  assert (Rb : raw_in_range Bottom (in_bottom pass_top_247))
    by (split; evaluate).
  assert (Rp : raw_in_range Probe (in_meat pass_top_247))
    by (split; evaluate).
  destruct (emergency_raw_thresholds pass_top_247 Rt Rb Rp) as (A & B).
  apply B, A. left. evaluate.
Defined.

(** X11.  While the probe is at or above its target and the system runs,
    the enclosure target cannot be set by hand: whatever a pass of
    [loop1()] does with the selector on the enclosure target, the next
    pass of the control loop puts the enclosure target at the probe
    target. *)
Theorem enclosure_target_held (i : LoopInput) (j : Loop1Input) (s : State) :
  current_setting s = 0 -> error_state s = false ->
  in_switch i = LOW -> tripping i = false ->
  desired_meat_temp s <= reading Probe (in_meat i) ->
  desired_meat_temp (loop1 j s) = desired_meat_temp s
  /\ desired_temp (loop i (loop1 j s)) = desired_meat_temp s.
Proof.
  intros Sel E Sw T Pr.
  assert (M : desired_meat_temp (loop1 j s) = desired_meat_temp s).
  { unfold_loop1. rewrite Sel. simpl. branch; reflexivity. }
  split; [exact M|].
  destruct (loop1_frame j s) as (F & _). cbv zeta in F.
  injection F as _ _ Fe _ _. rewrite <- Fe in E.
  destruct (loop_running i (loop1 j s) E Sw T)
    as (-> & _ & _ & _ & _ & Tm & Ds).
  cbv zeta in *. set (s1 := sense i (loop1 j s)) in *.
  injection Tm as _ _ Tp. injection Ds as _ Dm.
  destruct (controlFan_frame (millis (clk_fan i))
              (controlHeater (millis (clk_heater i)) s1))
    as (_ & _ & _ & G & _).
  cbv zeta in G. injection G as -> _.
  rewrite controlHeater_desired, converge_target_desired.
  destruct (Z.leb_spec (desired_meat_temp s1) (meat_temp s1)); [congruence|].
  lia.
Qed.

(** The enclosure target, turned up to 192 by a tick, is back at 190. *)
Lemma enclosure_target_held_witness :
  desired_temp (loop1 (pass1_at 49000 HIGH LOW HIGH) state_converged) = 192
  /\ desired_temp
       (loop pass_probe_high
             (loop1 (pass1_at 49000 HIGH LOW HIGH) state_converged)) = 190.
Proof.
  split; [reflexivity|].
  apply (enclosure_target_held pass_probe_high
           (pass1_at 49000 HIGH LOW HIGH) state_converged);
    evaluate.
Defined.

(** ** Button and encoder *)

Lemma handleEncoder_last_button_press (clk dt : PinStatus) (s : State) :
  last_button_press (handleEncoder clk dt s) = last_button_press s.
Proof. unfold handleEncoder, adjust. branch; reflexivity. Qed.

(** The button in a pass of [loop1()]: an accepted press records the
    instant of the second [millis()]. *)
Lemma loop1_press (j : Loop1Input) (s : State) :
  if press_accepted (in_btn j) (millis (clk_check j))
       (handleEncoder (in_clk j) (in_dt j) s)
  then button_debounce_time + 1
       <= ulong_sub (millis (clk_check j)) (last_button_press s)
       /\ last_button_press (loop1 j s) = millis (clk_press j)
  else last_button_press (loop1 j s) = last_button_press s.
Proof.
  unfold loop1, handleButton.
  set (s1 := handleEncoder (in_clk j) (in_dt j) s).
  pose proof (handleEncoder_last_button_press (in_clk j) (in_dt j) s) as E.
  fold s1 in E.
  destruct (press_accepted (in_btn j) (millis (clk_check j)) s1) eqn:P.
  - split; [|reflexivity]. unfold press_accepted in P.
    destruct (in_btn j); [|discriminate]. apply Z.ltb_lt in P.
    rewrite E in P. unfold button_debounce_time in *. lia.
  - exact E.
Qed.

Lemma press_instants_spaced (h : list Pass) :
  forall (s : State) (L lo : Z),
    last_button_press s = millis L -> L <= lo ->
    ascending lo (button_clocks h) = true ->
    Forall (fun x => L + (button_debounce_time + 1) <= x)
           (press_instants s h)
    /\ spaced (button_debounce_time + 1) (press_instants s h) = true.
Proof.
  unfold button_debounce_time.
  induction h as [|[i|j] h IH]; intros s L lo E Llo A; simpl in *.
  - split; [constructor | reflexivity].
  - pose proof (loop_input_frame i s) as F. injection F as _ _ _ F.
    apply (IH (loop i s) L lo); [congruence | exact Llo | exact A].
  - apply andb_true_iff in A. destruct A as [A1 A].
    apply andb_true_iff in A. destruct A as [A2 A3].
    apply Z.leb_le in A1. apply Z.leb_le in A2.
    pose proof (loop1_press j s) as Sp.
    destruct (press_accepted _ _ _); simpl.
    + destruct Sp as [Dw La]. rewrite E in Dw.
      unfold button_debounce_time in Dw.
      pose proof (elapsed_real (clk_check j) L _ ltac:(lia) Dw) as Gap.
      destruct (IH (loop1 j s) (clk_press j) (clk_press j) La ltac:(lia) A3)
        as [F Sd].
      split.
      * constructor; [lia|].
        eapply Forall_impl; [|exact F]. simpl. intros; lia.
      * rewrite Sd, andb_true_r. apply forallb_forall. intros x Hx.
        rewrite Forall_forall in F. specialize (F x Hx). apply Z.leb_le. lia.
    + apply (IH (loop1 j s) L (clk_press j)); [congruence | lia | exact A3].
Qed.

(** X12.  Debounce: through every history from power-up, with a clock
    that does not run backwards, any two presses that the button handler
    accepts are more than 500 ms apart. *)
Theorem presses_spaced (clk0 : PinStatus) (h : list Pass) :
  ascending 0 (button_clocks h) = true ->
  spaced (button_debounce_time + 1) (press_instants (initial_state clk0) h)
  = true.
Proof.
  intros A.
  apply (press_instants_spaced h (initial_state clk0) 0 0);
    [reflexivity | lia | exact A].
Qed.

Lemma presses_spaced_witness :
  press_instants (initial_state LOW) history_held_button = [1000; 1605; 2205]
  /\ spaced (button_debounce_time + 1)
       (press_instants (initial_state LOW) history_held_button) = true.
Proof.
  split; [reflexivity|].
  apply (presses_spaced LOW history_held_button). reflexivity.
Defined.

(** X13.  The button handler looks at the level of the pin, not at its
    edges: with the pin held low, a press is accepted again as soon as
    more than 500 ms are counted since the last one, and this second
    acceptance puts the selector back where it was. *)
Theorem held_button_repeats (tc tp tc' tp' : Z) (s : State) :
  current_setting s = 0 \/ current_setting s = 1 ->
  press_accepted LOW tc s = true ->
  button_debounce_time < ulong_sub tc' tp ->
  let s1 := handleButton LOW tc tp s in
  let s2 := handleButton LOW tc' tp' s1 in
  selector s1 = other (selector s)
  /\ press_accepted LOW tc' s1 = true
  /\ current_setting s2 = current_setting s
  /\ selector s2 = selector s
  /\ last_button_press s2 = tp'.
Proof.
  intros C P D s1 s2.
  assert (E1 : s1 = set_button (int_rem (int_add (current_setting s) 1) 2)
                      tp s).
  { unfold s1, handleButton. rewrite P. reflexivity. }
  assert (P' : press_accepted LOW tc' s1 = true).
  { rewrite E1. unfold press_accepted.
    cbn [last_button_press set_button]. apply Z.ltb_lt, D. }
  assert (E2 : s2 = set_button (int_rem (int_add (current_setting s1) 1) 2)
                      tp' s1).
  { unfold s2, handleButton. rewrite P'. reflexivity. }
  split; [|split; [exact P'|]].
  - rewrite E1. unfold selector. cbn [current_setting set_button].
    destruct C as [-> | ->]; reflexivity.
  - rewrite E2, E1. unfold selector.
    cbn [current_setting last_button_press set_button].
    destruct C as [-> | ->]; repeat split; reflexivity.
Qed.

Lemma held_button_repeats_witness :
  selector (handleButton LOW 1000 1000 (initial_state LOW)) = ProbeTarget
  /\ selector (handleButton LOW 1605 1605
                 (handleButton LOW 1000 1000 (initial_state LOW)))
     = Enclosure.
Proof.
  destruct (held_button_repeats 1000 1000 1605 1605 (initial_state LOW))
    as (A & _ & _ & B & _).
  - left. reflexivity.
  - reflexivity.
  - evaluate.
  - split; [exact A | exact B].
Defined.

Lemma handleEncoder_no_tick_targets (clk dt : PinStatus) (s : State) :
  tick clk s = false -> targets (handleEncoder clk dt s) = targets s.
Proof. intros T. rewrite (handleEncoder_no_tick clk dt s T). reflexivity. Qed.

Lemma handleEncoder_state_last (clk dt : PinStatus) (s : State) :
  encoder_state_last (handleEncoder clk dt s) = pin_value clk.
Proof. reflexivity. Qed.

(** X14.  The encoder is counted on the rising edges of CLK only: a pass
    that reads CLK low changes no target, a pass that reads CLK as the
    pass before read it changes no target, and after every pass
    [encoder_state_last] is what CLK read, so that a tick is counted
    once. *)
Theorem encoder_counts_rising_edges :
  (forall (dt : PinStatus) (s : State),
      targets (handleEncoder LOW dt s) = targets s)
  /\ (forall (clk dt dt' : PinStatus) (s : State),
         targets (handleEncoder clk dt' (handleEncoder clk dt s))
         = targets (handleEncoder clk dt s))
  /\ (forall (clk dt : PinStatus) (s : State),
         encoder_state_last s = pin_value clk ->
         targets (handleEncoder clk dt s) = targets s)
  /\ (forall (clk dt : PinStatus) (s : State),
         tick clk s = true
         <-> clk = HIGH /\ encoder_state_last s <> 1).
Proof.
  split; [|split; [|split]].
  - intros dt s. apply handleEncoder_no_tick_targets.
    unfold tick. cbn [pin_value]. change (0 =? 1) with false.
    apply andb_false_r.
  - intros clk dt dt' s. apply handleEncoder_no_tick_targets.
    unfold tick. rewrite handleEncoder_state_last, Z.eqb_refl. reflexivity.
  - intros clk dt s E. apply handleEncoder_no_tick_targets.
    unfold tick. rewrite E, Z.eqb_refl. reflexivity.
  - intros clk dt s. unfold tick. destruct clk; cbn [pin_value].
    + change (0 =? 1) with false. rewrite andb_false_r.
      split; [discriminate | intros [H _]; discriminate].
    + change (1 =? 1) with true. rewrite andb_true_r.
      destruct (Z.eqb_spec 1 (encoder_state_last s)) as [H|H]; cbn.
      * split; [discriminate | intros [_ X]; congruence].
      * split; [intros _; split; [reflexivity | congruence] | reflexivity].
Qed.

Lemma handleEncoder_effect (clk dt : PinStatus) (s : State) :
  current_setting (handleEncoder clk dt s) = current_setting s
  /\ (tick clk s = true ->
      targets (handleEncoder clk dt s)
      = if current_setting s =? 0
        then (int_add (desired_temp s) (tick_step clk dt),
              desired_meat_temp s)
        else (desired_temp s,
              int_add (desired_meat_temp s) (tick_step clk dt))).
Proof.
  split.
  - unfold handleEncoder, adjust. branch; reflexivity.
  - intros T. rewrite (handleEncoder_tick clk dt s T).
    unfold adjust, targets. destruct (current_setting s =? 0); reflexivity.
Qed.

Lemma tick_from_low (dt : PinStatus) (s : State) :
  encoder_state_last s = 0 -> tick HIGH s = true.
Proof. intros E. unfold tick. rewrite E. reflexivity. Qed.

(** A tick by [d], CLK low, and a tick by [- d]. *)
Lemma there_and_back (d1 d2 d3 : PinStatus) (s : State) :
  encoder_state_last s = 0 -> adjustable (target (selector s) s) ->
  tick_step HIGH d1 + tick_step HIGH d3 = 0 ->
  targets (handleEncoder HIGH d3
             (handleEncoder LOW d2 (handleEncoder HIGH d1 s)))
  = targets s.
Proof.
  intros E A Z0. unfold adjustable, INT_MIN, INT_MAX in A.
  pose proof (tick_step_cases HIGH d1) as D1.
  pose proof (tick_step_cases HIGH d3) as D3.
  set (s1 := handleEncoder HIGH d1 s).
  set (s2 := handleEncoder LOW d2 s1).
  destruct (handleEncoder_effect HIGH d1 s) as (C1 & T1).
  specialize (T1 (tick_from_low d1 s E)). fold s1 in C1, T1.
  destruct (handleEncoder_effect LOW d2 s1) as (C2 & _). fold s2 in C2.
  assert (T2 : targets s2 = targets s1).
  { apply handleEncoder_no_tick_targets. unfold tick.
    cbn [pin_value]. change (0 =? 1) with false. apply andb_false_r. }
  destruct (handleEncoder_effect HIGH d3 s2) as (_ & T3).
  specialize (T3 (tick_from_low d3 s2 eq_refl)).
  rewrite T3, C2, C1.
  pose proof (f_equal fst T2) as Dt2. pose proof (f_equal snd T2) as Dm2.
  pose proof (f_equal fst T1) as Dt1. pose proof (f_equal snd T1) as Dm1.
  unfold targets in Dt2, Dm2, Dt1, Dm1 |- *. cbn [fst snd] in Dt2, Dm2.
  rewrite Dt2, Dm2. clear T1 T2 T3 Dt2 Dm2.
  unfold selector, target in A. unfold int_add in *.
  destruct (current_setting s =? 0); cbn [fst snd] in Dt1, Dm1;
    rewrite Dt1, Dm1; f_equal;
    rewrite (wrap_int_exact (_ + tick_step HIGH d1))
      by (unfold INT_MIN, INT_MAX; lia);
    rewrite wrap_int_exact by (unfold INT_MIN, INT_MAX; lia); lia.
Qed.

(** X15.  A tick clockwise and a tick counter-clockwise, in either order,
    with CLK low in between, leave both targets as they were, for every
    value of the selected target from which an [int] can move by 2. *)
Theorem encoder_round_trip (dt : PinStatus) (s : State) :
  encoder_state_last s = 0 -> adjustable (target (selector s) s) ->
  targets (handleEncoder HIGH HIGH
             (handleEncoder LOW dt (handleEncoder HIGH LOW s)))
  = targets s
  /\ targets (handleEncoder HIGH LOW
                (handleEncoder LOW dt (handleEncoder HIGH HIGH s)))
     = targets s.
Proof.
  intros E A. split.
  - apply there_and_back; [exact E | exact A | reflexivity].
  - apply there_and_back; [exact E | exact A | reflexivity].
Qed.

Lemma encoder_round_trip_witness :
  targets (handleEncoder HIGH HIGH
             (handleEncoder LOW LOW (handleEncoder HIGH LOW
                                       (initial_state LOW))))
  = (230, 190)
  /\ targets (handleEncoder HIGH LOW (initial_state LOW)) = (232, 190).
Proof.
  split; [|reflexivity].
  apply (encoder_round_trip LOW (initial_state LOW)); [reflexivity|].
  split; evaluate.
Defined.

(** X16.  In a pass of [loop1()] the encoder is handled before the
    button: when the pass has both a tick and an accepted press, the tick
    goes to the target that was selected before the press, and the
    selector then moves to the other target. *)
Theorem tick_before_press (j : Loop1Input) (s : State) :
  tick (in_clk j) s = true ->
  press_accepted (in_btn j) (millis (clk_check j)) s = true ->
  current_setting s = 0 \/ current_setting s = 1 ->
  adjustable (target (selector s) s) ->
  target (selector s) (loop1 j s)
  = target (selector s) s + tick_step (in_clk j) (in_dt j)
  /\ target (other (selector s)) (loop1 j s) = target (other (selector s)) s
  /\ selector (loop1 j s) = other (selector s).
Proof.
  intros T P C A. unfold loop1.
  set (s1 := handleEncoder (in_clk j) (in_dt j) s).
  assert (P1 : press_accepted (in_btn j) (millis (clk_check j)) s1 = true).
  { unfold press_accepted in *. destruct (in_btn j); [|discriminate].
    unfold s1. rewrite handleEncoder_last_button_press. exact P. }
  unfold handleButton. rewrite P1.
  destruct (handleEncoder_effect (in_clk j) (in_dt j) s) as (C1 & T1).
  specialize (T1 T). fold s1 in C1, T1.
  pose proof (f_equal fst T1) as Dt. pose proof (f_equal snd T1) as Dm.
  unfold targets in Dt, Dm. cbn [fst snd] in Dt, Dm.
  pose proof (tick_step_cases (in_clk j) (in_dt j)) as D.
  unfold selector, target, other in *.
  cbn [current_setting desired_temp desired_meat_temp set_button].
  rewrite C1.
  destruct C as [C | C]; rewrite C in *; cbn in Dt, Dm |- *;
    rewrite ?Dt, ?Dm, ?int_add_adjustable by assumption; auto.
Qed.

Lemma tick_before_press_witness :
  desired_temp (loop1 pass_tick_and_press (initial_state LOW)) = 232
  /\ desired_meat_temp (loop1 pass_tick_and_press (initial_state LOW)) = 190
  /\ selector (loop1 pass_tick_and_press (initial_state LOW)) = ProbeTarget.
Proof.
  destruct (tick_before_press pass_tick_and_press (initial_state LOW))
    as (A & B & C).
  - reflexivity.
  - reflexivity.
  - left. reflexivity.
  - split; evaluate.
  - split; [exact A|]. split; [exact B | exact C].
Defined.

(** ** The band of the heater *)

Lemma loop_dead_band (i : LoopInput) (s : State) :
  error_state s = false ->
  in_dead_band (desired_temp s) (desired_meat_temp s) i ->
  heater_on (loop i s) = heater_on s
  /\ error_state (loop i s) = false
  /\ (desired_temp (loop i s), desired_meat_temp (loop i s))
     = (desired_temp s, desired_meat_temp s).
Proof.
  intros E (Sw & T & Rt & Bt & Bb & Bp).
  destruct (loop_running i s E Sw T) as (-> & E' & _ & Hs & _ & Tm & Ds).
  cbv zeta in *. set (s1 := sense i s) in *.
  injection Hs as Hh _. injection Tm as Tt Tb Tp. injection Ds as Dt Dm.
  set (th := millis (clk_heater i)). set (tf := millis (clk_fan i)).
  destruct (controlFan_frame tf (controlHeater th s1))
    as (F & _ & _ & Fd & _).
  destruct (controlHeater_frame th s1) as (_ & _ & _ & Kd & _).
  cbv zeta in F, Fd, Kd. injection F as _ _ Fe Fh. injection Fd as Fd1 Fd2.
  assert (Cv : desired_temp (converge_target s1) = desired_temp s).
  { rewrite converge_target_desired.
    destruct (Z.leb_spec (desired_meat_temp s1) (meat_temp s1)); [lia|].
    exact Dt. }
  rewrite <- Tt in Rt.
  destruct (controlHeater_rule th s1 Rt) as (On & Off & _).
  cbv zeta in On, Off. rewrite Cv in On, Off.
  split; [|split].
  - rewrite Fh, <- Hh.
    destruct (heater_on s1) eqn:H1, (heater_on (controlHeater th s1)) eqn:H2;
      try reflexivity; exfalso.
    + assert (X : true = true /\ false = false) by (split; reflexivity).
      apply Off in X. lia.
    + assert (X : false = false /\ true = true) by (split; reflexivity).
      apply On in X. lia.
  - exact E'.
  - rewrite Fd1, Fd2, Kd, controlHeater_desired, Cv, Dm. reflexivity.
Qed.

(** X17.  The band of the heater: through any number of running passes of
    the control loop with Top from 5 degrees below the enclosure target up
    to it (the target excluded), Bottom below the target and the probe
    below its target, the heater stays as it is, on or off, however long
    ago it was switched. *)
Theorem heater_dead_band (l : list LoopInput) (s : State) :
  error_state s = false ->
  Forall (in_dead_band (desired_temp s) (desired_meat_temp s)) l ->
  heater_on (run_loop s l) = heater_on s.
Proof.
  revert s. induction l as [|i l IH]; intros s E B.
  - reflexivity.
  - inversion B as [|? ? Bi Bl]; subst.
    destruct (loop_dead_band i s E Bi) as (H & E' & D).
    injection D as D1 D2.
    change (heater_on (run_loop (loop i s) l) = heater_on s).
    rewrite IH; [exact H | exact E' |]. rewrite D1, D2. exact Bl.
Qed.

Lemma heater_dead_band_witness :
  heater_on (run_loop state_just_switched history_dead_band) = true.
Proof.
  apply (heater_dead_band history_dead_band state_just_switched);
    [reflexivity|].
  repeat constructor; evaluate.
Defined.

(** ** Samples of the display *)

Lemma status_row_fills_line_witness :
  row3 (updateDisplay 0 state_error_on) = "ERROR: HIGH TEMP!!!!"%string.
Proof.
  apply (proj2 (proj2 (status_row_fills_line 0 state_error_on))).
  reflexivity.
Defined.

Lemma title_row_width_witness :
  String.length
    (row0 (updateDisplay (millis clock_session) state_session)) = LCD_COLS
  /\ row0 (updateDisplay (millis clock_session)
             (loop pass_on (loop pass_trip (initial_state LOW))))
     = "Smokey! "%string.
Proof.
  split.
  - destruct (title_row_width clock_session 2000 state_session)
      as (_ & R & _).
    + reflexivity.
    + split; evaluate.
    + apply R; evaluate.
  - destruct (title_row_width clock_session 20000
                (loop pass_trip (initial_state LOW)))
      as (_ & _ & _ & _ & R).
    + reflexivity.
    + split; evaluate.
    + apply (R pass_on); reflexivity.
Defined.

Lemma reading_rows_width_witness :
  String.length (row1 (updateDisplay 0 state_session)) = LCD_COLS
  /\ String.length (row2 (updateDisplay 0 state_session)) = LCD_COLS.
Proof.
  destruct (reading_rows_width 0 state_session) as (A & B & _).
  split; [apply A | apply B]; split; evaluate.
Defined.

Lemma encoder_counts_rising_edges_witness :
  targets (handleEncoder HIGH LOW (handleEncoder HIGH LOW (initial_state LOW)))
  = (232, 190).
Proof.
  destruct encoder_counts_rising_edges as (_ & R & _).
  rewrite (R HIGH LOW LOW (initial_state LOW)). reflexivity.
Defined.
